(** * sync_radar_data_globus: a shallow embedding of the Synchronizer

    The script logs on to the Globus SuperDARN mirror, lists the files of one
    (data type, year, month) directory that match a pattern, submits a
    checksum transfer of those files and waits for it with a soft timeout.

    Python values are modelled as follows: [int] as [Z], [str] as [string],
    lists as [list], the [Synchronizer] object as records, exceptions as the
    inductive [exn] carried by [result], and everything that talks to the
    outside (stdout, stdin, the Globus SDK, the refresh-token file) as a
    computation in the monad [M], which reads the answers of the outside
    from a [World] and logs every interaction as an [event]. *)

From Stdlib Require Import ZArith List Bool Lia.
From Stdlib Require Import Strings.String Strings.Ascii.
From Stdlib Require Import Numbers.DecimalString Numbers.DecimalZ.
From Stdlib Require Decimal.
Import ListNotations.

#[local] Open Scope string_scope.
#[local] Open Scope Z_scope.

(** ** Python strings *)

Module PyStr.

(** [sub in s] on two [str] values: [sub] occurs in [s] as a substring. *)
Fixpoint contains (sub s : string) : bool :=
  String.prefix sub s ||
  match s with
  | EmptyString => false
  | String _ s' => contains sub s'
  end.

(** [x in l] on a list of [str]. *)
Definition mem (x : string) (l : list string) : bool :=
  existsb (String.eqb x) l.

Fixpoint zeros (n : nat) : string :=
  match n with
  | O => EmptyString
  | S n' => String "0" (zeros n')
  end.

(** ["{}".format(n)] for an [int]. *)
Definition format_d (n : Z) : string :=
  NilZero.string_of_int (Z.to_int n).

(** ["{:02d}".format(n)]: minimum width two, zero fill between the sign and
    the digits. *)
Definition format_02d (n : Z) : string :=
  let sign := if n <? 0 then "-" else EmptyString in
  let digits := NilZero.string_of_uint (N.to_uint (Z.abs_N n)) in
  sign ++ zeros (2 - length sign - length digits)%nat ++ digits.

(** [int(s)] on a decimal literal with an optional minus sign, which is all
    the script ever passes; [None] stands for [ValueError]. *)
Definition int (s : string) : option Z :=
  option_map Z.of_int (NilZero.int_of_string s).

Definition is_digit (c : ascii) : bool :=
  (48 <=? Z.of_nat (nat_of_ascii c)) && (Z.of_nat (nat_of_ascii c) <=? 57).

Definition is_space (c : ascii) : bool :=
  let n := nat_of_ascii c in
  Nat.eqb n 32 || (Nat.leb 9 n && Nat.leb n 13).

Fixpoint lstrip (s : string) : string :=
  match s with
  | EmptyString => EmptyString
  | String c s' => if is_space c then lstrip s' else s
  end.

Fixpoint rstrip (s : string) : string :=
  match s with
  | EmptyString => EmptyString
  | String c s' =>
      match rstrip s' with
      | EmptyString => if is_space c then EmptyString else String c EmptyString
      | r => String c r
      end
  end.

(** [s.strip()] *)
Definition strip (s : string) : string := rstrip (lstrip s).

Definition nl : string := String (ascii_of_nat 10) EmptyString.

(** The double-quote character. *)
Definition dq : string := String (ascii_of_nat 34) EmptyString.

(** [f.readline()] on the content of a file just opened. *)
Fixpoint readline (s : string) : string :=
  match s with
  | EmptyString => EmptyString
  | String c s' =>
      if Ascii.eqb c (ascii_of_nat 10) then String c EmptyString else String c (readline s')
  end.

End PyStr.

(** ** Exceptions and results *)

Inductive exn : Type :=
| SystemExit (msg : string)
| GlobusAPIError (code message : string)
| GlobusConnectionError
| GlobusTimeoutError
| NetworkError
| IOError
| KeyError (key : string)
| ValueError
| TypeError.

Inductive result (A : Type) : Type :=
| Ret (a : A)
| Raise (e : exn).
Arguments Ret {A} a.
Arguments Raise {A} e.

Definition rbind {A B : Type} (r : result A) (k : A -> result B) : result B :=
  match r with
  | Ret a => k a
  | Raise e => Raise e
  end.

Declare Scope py_scope.
Delimit Scope py_scope with py.
Notation "x <-? r ; k" := (rbind r (fun x => k))
  (at level 61, r at next level, right associativity) : py_scope.
#[local] Open Scope py_scope.

(** [sys.exit(msg)] *)
Definition sys_exit {A : Type} (msg : string) : result A := Raise (SystemExit msg).

Definition py_int (s : string) : result Z :=
  match PyStr.int s with
  | Some n => Ret n
  | None => Raise ValueError
  end.

(** ** The request part of the Synchronizer object *)

(** What [parser.parse_args()] returns. *)
Record Args : Type := mkArgs {
  arg_sync_year : Z;
  arg_sync_month : Z;
  arg_sync_pattern : string;
  arg_data_type : string;
  arg_sync_local_dir : string
}.

(** The attributes [__init__] sets before it calls [sanity_check]. *)
Record Request : Type := mkRequest {
  cur_year : Z;
  cur_month : Z;
  possible_data_types : list string;
  CLIENT_ID : string;
  CLIENT_SECRET : option string;
  TRANSFER_RT : option string;
  transfer_rt_filename : string;
  sync_year : Z;
  sync_month : string;
  sync_pattern : string;
  data_type : string;
  sync_local_dir : string
}.

Definition data_types : list string :=
  ["raw"; "dat"; "fit"; "map"; "grid"; "summary"].

(** [str(self.possible_data_types)] as [format] prints it. *)
Definition data_types_repr : string :=
  "['raw', 'dat', 'fit', 'map', 'grid', 'summary']".

Definition msg_future_month (y : Z) (m : string) : string :=
  "Year " ++ PyStr.format_d y ++ " and month " ++ m ++ " is in the future. Exiting".

Definition msg_future_year (y : Z) : string :=
  "Sync year " ++ PyStr.dq ++ PyStr.format_d y ++ PyStr.dq ++ " is in the future. Exiting".

Definition msg_invalid_month (m : string) : string :=
  "Sync month " ++ PyStr.dq ++ m ++ PyStr.dq ++ " invalid. Exiting".

Definition msg_data_type (types_repr : string) : string :=
  "Data type can only be one of " ++ types_repr ++ ". Exiting".

(** [Synchronizer.sanity_check]: the four checks in the order of the source.
    [int(self.sync_year)] is the identity on an [int]; [int(self.sync_month)]
    parses the string [__init__] stored; [and] and [or] short-circuit. *)
Definition sanity_check (self : Request) : result unit :=
  future_month <-? (if sync_year self =? cur_year self
                    then m <-? py_int (sync_month self) ; Ret (m >? cur_month self)
                    else Ret false) ;
  if (future_month : bool)
  then sys_exit (msg_future_month (sync_year self) (sync_month self))
  else
  if sync_year self >? cur_year self
  then sys_exit (msg_future_year (sync_year self))
  else
  bad_month <-? (m <-? py_int (sync_month self) ;
                 if m <? 1 then Ret true
                 else m' <-? py_int (sync_month self) ; Ret (m' >? 12)) ;
  if (bad_month : bool)
  then sys_exit (msg_invalid_month (sync_month self))
  else
  if negb (PyStr.mem (data_type self) (possible_data_types self))
  then sys_exit (msg_data_type data_types_repr)
  else Ret tt.

(** The attribute assignments of [__init__] up to the call of
    [sanity_check]; [now] is what [datetime.now()] gives as (year, month). *)
Definition make_request (now : Z * Z) (client_id : string)
    (client_secret transfer_rt : option string) (rt_filename : string)
    (args : Args) : Request :=
  {| cur_year := fst now;
     cur_month := snd now;
     possible_data_types := data_types;
     CLIENT_ID := client_id;
     CLIENT_SECRET := client_secret;
     TRANSFER_RT := transfer_rt;
     transfer_rt_filename := rt_filename;
     sync_year := arg_sync_year args;
     sync_month := PyStr.format_02d (arg_sync_month args);
     sync_pattern := arg_sync_pattern args;
     data_type := arg_data_type args;
     sync_local_dir := arg_sync_local_dir args |}.

(** ** The outside world *)

(** One result of [endpoint_search]; the script reads the keys ['id'],
    ['contact_email'] and ['description']. The last two are [None] in a
    document whose field is unset (JSON null). *)
Record Endpoint : Type := mkEndpoint {
  ep_id : string;
  ep_contact_email : option string;
  ep_description : option string
}.

(** One value of [token_response.by_resource_server]. *)
Record TokenData : Type := mkTokenData {
  access_token : string;
  refresh_token : string
}.

(** [token_response.by_resource_server], a dict keyed by resource server. *)
Definition TokenResponse : Type := list (string * TokenData).

Inductive Authorizer : Type :=
| RefreshTokenAuthorizer (refresh : string) (client_id : string)
| AccessTokenAuthorizer (token : string).

Record TransferClient : Type := mkTransferClient {
  authorizer : Authorizer
}.

(** [globus_sdk.TransferData]: the keyword arguments of its constructor and
    the items that [add_item] appends, as (source path, destination path). *)
Record TransferData : Type := mkTransferData {
  td_source_endpoint : string;
  td_destination_endpoint : string;
  td_label : string;
  td_sync_level : string;
  td_notify_on_succeeded : bool;
  td_notify_on_failed : bool;
  td_items : list (string * string)
}.

Definition add_item (td : TransferData) (src dst : string) : TransferData :=
  {| td_source_endpoint := td_source_endpoint td;
     td_destination_endpoint := td_destination_endpoint td;
     td_label := td_label td;
     td_sync_level := td_sync_level td;
     td_notify_on_succeeded := td_notify_on_succeeded td;
     td_notify_on_failed := td_notify_on_failed td;
     td_items := (td_items td ++ [(src, dst)])%list |}.

(** One entry of a directory listing; only ['name'] is read. *)
Record Entry : Type := mkEntry {
  entry_name : string
}.

(** The result of [submit_transfer]; only ['task_id'] is read. *)
Record TransferResult : Type := mkTransferResult {
  task_id : string
}.

(** Every interaction with the outside, in the order it happens.
    [OpenFile] is [open(path, 'w')], which creates the file or truncates it;
    [WriteFile] is the content reaching the file by the time it is closed;
    [RefreshTokenGrant] is the token request the refresh-token authorizer
    makes when it is built; [CancelTask] is the SDK's call that cancels a
    submitted task. *)
Inductive event : Type :=
| Print (line : string)
| Input (prompt : string)
| OpenFile (path : string)
| WriteFile (path content : string)
| ExchangeCodeForTokens (auth_code : string)
| ClientCredentialsTokens (client_id client_secret : string)
| RefreshTokenGrant (refresh : string)
| EndpointSearch (filter_fulltext : string)
| OperationLs (endpoint path filter : string)
| SubmitTransfer (data : TransferData)
| TaskWait (task : string) (timeout polling_interval : Z)
| CancelTask (task : string).

(** What happens when the token file is opened for writing and written:
    all goes well, [open] raises, or [open] succeeds and the write (or the
    close that flushes it) raises. *)
Inductive write_outcome : Type :=
| WriteSucceeds
| OpenRaises
| WriteRaises.

(** The answers of the outside: the clock, the operator, the file system at
    the token path and the Globus service behind the SDK calls, each of which
    either returns or raises. [service_task_wait] is the service's answer to
    a wait whose arguments the SDK has accepted. *)
Record World : Type := mkWorld {
  now : Z * Z;
  home : string;
  rt_file : option string;
  rt_file_write : write_outcome;
  authorize_url : string;
  stdin_line : string;
  exchange_code_for_tokens : string -> result TokenResponse;
  client_credentials_tokens : string -> string -> result TokenResponse;
  refresh_token_grant : string -> result string;
  endpoint_search : string -> result (list Endpoint);
  operation_ls : string -> string -> string -> result (list Entry);
  submit_transfer : TransferData -> result TransferResult;
  service_task_wait : string -> Z -> Z -> result bool
}.

(** [TransferClient.task_wait]: the SDK refuses a timeout or a polling
    interval below 1 with [ValueError] before it polls; otherwise the answer
    is the service's. *)
Definition task_wait (w : World) (task : string) (timeout polling_interval : Z)
    : result bool :=
  if (timeout <? 1) || (polling_interval <? 1)
  then Raise ValueError
  else service_task_wait w task timeout polling_interval.

(** [client.oauth2_start_flow(refresh_tokens=True)] on a native-app client:
    the SDK refuses an empty client id with [ValueError]. *)
Definition oauth2_start_flow (client_id : string) : result unit :=
  match client_id with
  | EmptyString => Raise ValueError
  | String _ _ => Ret tt
  end.

(** [sub in v] where [v] may be [None]: [TypeError] on [None]. *)
Definition py_in (sub : string) (v : option string) : result bool :=
  match v with
  | Some s => Ret (PyStr.contains sub s)
  | None => Raise TypeError
  end.

(** ** The monad of the script: read the world, log events, maybe raise *)

Definition M (A : Type) : Type := World -> list event * result A.

Definition ret {A : Type} (a : A) : M A := fun _ => ([], Ret a).

Definition bind {A B : Type} (m : M A) (k : A -> M B) : M B :=
  fun w =>
    match m w with
    | (t1, Ret a) => let (t2, r) := k a w in ((t1 ++ t2)%list, r)
    | (t1, Raise e) => (t1, Raise e)
    end.

Notation "x <- m ;; k" := (bind m (fun x => k))
  (at level 61, m at next level, right associativity) : py_scope.
Notation "m ;; k" := (bind m (fun _ => k))
  (at level 61, right associativity) : py_scope.

Definition lift {A : Type} (r : result A) : M A := fun _ => ([], r).

Definition ask {A : Type} (f : World -> A) : M A := fun w => ([], Ret (f w)).

(** An SDK call: logged, then answered by the world. *)
Definition call {A : Type} (e : event) (f : World -> result A) : M A :=
  fun w => ([e], f w).

Definition print (line : string) : M unit := fun _ => ([Print line], Ret tt).

Definition input (prompt : string) : M string :=
  fun w => ([Input prompt], Ret (stdin_line w)).

(** [try: body except ...: handler]: [handler e = None] when no clause
    matches [e], which then propagates. *)
Definition try_except {A : Type} (body : M A) (handler : exn -> option (M A)) : M A :=
  fun w =>
    match body w with
    | (t1, Ret a) => (t1, Ret a)
    | (t1, Raise e) =>
        match handler e with
        | Some h => let (t2, r) := h w in ((t1 ++ t2)%list, r)
        | None => (t1, Raise e)
        end
    end.

Definition trace {A : Type} (m : M A) (w : World) : list event := fst (m w).
Definition outcome {A : Type} (m : M A) (w : World) : result A := snd (m w).

(** ** Module-level constants *)

Module Config.
Definition PERSONAL_UUID : string := EmptyString.
Definition CLIENT_ID : string := EmptyString.
Definition TRANSFER_RT_FILENAME (HOME : string) : string :=
  HOME ++ "/.globus_transfer_rt".
End Config.

(** ** The month iterator *)

(** [range(a, b)] on two [int]s. *)
Definition py_range (a b : Z) : list Z :=
  map (fun i => a + Z.of_nat i) (seq 0 (Z.to_nat (b - a))).

(** [divmod(a, b)] on [int]s: floor quotient and the remainder with the sign
    of [b]. *)
Definition divmod (a b : Z) : Z * Z := (a / b, a mod b).

(** [month_year_iterator]: the pairs the generator yields, in order. *)
Definition month_year_iterator (start_month start_year end_month end_year : Z)
    : list (Z * Z) :=
  let ym_start := 12 * start_year + start_month - 1 in
  let ym_end := 12 * end_year + end_month - 1 in
  map (fun ym => let (y, m) := divmod ym 12 in (y, m + 1)) (py_range ym_start ym_end).

(** ** The Synchronizer *)

(** The object once [__init__] has finished. *)
Record Synchronizer : Type := mkSynchronizer {
  request : Request;
  transfer_client : TransferClient;
  mirror_uuid : string
}.

Definition transfer_server : string := "transfer.api.globus.org".

(** [d[key]] on [by_resource_server]. *)
Fixpoint by_resource_server (d : TokenResponse) (key : string) : result TokenData :=
  match d with
  | [] => Raise (KeyError key)
  | (k, v) :: d' => if String.eqb k key then Ret v else by_resource_server d' key
  end.

(** [Synchronizer.get_refresh_token_authorizer]; [self.TRANSFER_RT] is not
    [None] on the only path that calls it. The client starts the flow, and
    the authorizer, built without an access token, requests one. *)
Definition get_refresh_token_authorizer (self : Request) (rt : string) : M Authorizer :=
  lift (oauth2_start_flow (CLIENT_ID self)) ;;
  call (RefreshTokenGrant rt) (fun w => refresh_token_grant w rt) ;;
  ret (RefreshTokenAuthorizer rt (CLIENT_ID self)).

(** [Synchronizer.get_client_secret_authorizer] *)
Definition get_client_secret_authorizer (self : Request) (secret : string) : M Authorizer :=
  token_response <- call (ClientCredentialsTokens (CLIENT_ID self) secret)
                      (fun w => client_credentials_tokens w (CLIENT_ID self) secret) ;;
  globus_transfer_data <- lift (by_resource_server token_response transfer_server) ;;
  let globus_transfer_token := access_token globus_transfer_data in
  ret (AccessTokenAuthorizer globus_transfer_token).

Definition msg_login_url (url : string) : string :=
  "Please go to this URL and login: " ++ url.

Definition prompt_code : string :=
  "Please enter the code you get after login here: ".

Definition msg_refresh_token (rt filename : string) : string :=
  "Here is your refresh token: " ++ rt ++ ". It has been written to the file " ++ filename.

Definition msg_keep_secret : string :=
  "Note: refresh tokens are lifetime credentials, they should be kept secret. Consents " ++
  "for these credentials are managed at https://auth.globus.org/v2/web/consents".

(** [with open(path, 'w') as f: f.write(content)]: there is no handler
    around it in the source, so a failure to open or to write raises; a
    failure after the open leaves the file created or truncated. *)
Definition write_file (path content : string) : M unit :=
  fun w =>
    match rt_file_write w with
    | WriteSucceeds => ([OpenFile path; WriteFile path content], Ret tt)
    | OpenRaises => ([], Raise IOError)
    | WriteRaises => ([OpenFile path], Raise IOError)
    end.

(** [Synchronizer.get_auth_with_login] *)
Definition get_auth_with_login (self : Request) : M Authorizer :=
  lift (oauth2_start_flow (CLIENT_ID self)) ;;
  url <- ask authorize_url ;;
  print (msg_login_url url) ;;
  line <- input prompt_code ;;
  let auth_code := PyStr.strip line in
  token_response <- call (ExchangeCodeForTokens auth_code)
                      (fun w => exchange_code_for_tokens w auth_code) ;;
  globus_transfer_data <- lift (by_resource_server token_response transfer_server) ;;
  let globus_transfer_token := access_token globus_transfer_data in
  print (msg_refresh_token (refresh_token globus_transfer_data)
           (transfer_rt_filename self)) ;;
  write_file (transfer_rt_filename self) (refresh_token globus_transfer_data) ;;
  print msg_keep_secret ;;
  ret (AccessTokenAuthorizer globus_transfer_token).

(** [Synchronizer.get_transfer_client] *)
Definition get_transfer_client (self : Request) : M TransferClient :=
  match TRANSFER_RT self with
  | Some rt =>
      a <- get_refresh_token_authorizer self rt ;; ret (mkTransferClient a)
  | None =>
      match CLIENT_SECRET self with
      | Some secret =>
          a <- get_client_secret_authorizer self secret ;; ret (mkTransferClient a)
      | None =>
          a <- get_auth_with_login self ;; ret (mkTransferClient a)
      end
  end.

Definition maintainer : string := "kevin.krieger@usask.ca".
Definition marker : string := "Official".

(** The test of the loop: [and] evaluates the description test only when
    the contact test is true. *)
Definition is_mirror (ep : Endpoint) : result bool :=
  in_contact <-? py_in maintainer (ep_contact_email ep) ;
  if (in_contact : bool) then py_in marker (ep_description ep) else Ret false.

Definition msg_no_endpoint : string :=
  "No endpoint found for SuperDARN mirror. Exiting".

(** The [for ep in ...] loop of [get_superdarn_mirror_uuid] with its early
    [return], and the [sys.exit] after the loop. *)
Fixpoint mirror_loop (eps : list Endpoint) : result string :=
  match eps with
  | [] => sys_exit msg_no_endpoint
  | ep :: rest =>
      matches <-? (in_contact <-? py_in maintainer (ep_contact_email ep) ;
                   if (in_contact : bool)
                   then py_in marker (ep_description ep)
                   else Ret false) ;
      if (matches : bool) then Ret (ep_id ep) else mirror_loop rest
  end.

(** [Synchronizer.get_superdarn_mirror_uuid] *)
Definition get_superdarn_mirror_uuid : M string :=
  eps <- call (EndpointSearch "SuperDARN mirror")
           (fun w => endpoint_search w "SuperDARN mirror") ;;
  lift (mirror_loop eps).

(** [Synchronizer.__init__], given what [argparse] parsed. *)
Definition init (client_id : string) (client_secret transfer_rt : option string)
    (args : Args) : M Synchronizer :=
  clock <- ask now ;;
  rt_filename <- ask (fun w => Config.TRANSFER_RT_FILENAME (home w)) ;;
  let self := make_request clock client_id client_secret transfer_rt rt_filename args in
  lift (sanity_check self) ;;
  client <- get_transfer_client self ;;
  uuid <- get_superdarn_mirror_uuid ;;
  ret (mkSynchronizer self client uuid).

Definition source_dir_prefix (self : Request) : string :=
  "/chroot/sddata/" ++ data_type self ++ "/" ++ PyStr.format_d (sync_year self)
  ++ "/" ++ sync_month self ++ "/".

(** The body of the [for data_file in files_list] loop, folded over the list. *)
Definition add_items (td : TransferData) (src_prefix dst_prefix : string)
    (files_list : list string) : TransferData :=
  fold_left
    (fun td data_file =>
       add_item td (src_prefix ++ "/" ++ data_file) (dst_prefix ++ "/" ++ data_file))
    files_list td.

(** The [TransferData] that [sync_files_from_list] builds before submitting. *)
Definition build_transfer_data (self : Synchronizer) (files_list : list string)
    (source_uuid : option string) (dest_uuid : string) : TransferData :=
  let source_uuid := match source_uuid with
                     | None => mirror_uuid self
                     | Some u => u
                     end in
  let function_name := "sync_files_from_list" in
  let transfer_data :=
    {| td_source_endpoint := source_uuid;
       td_destination_endpoint := dest_uuid;
       td_label := function_name;
       td_sync_level := "checksum";
       td_notify_on_succeeded := false;
       td_notify_on_failed := true;
       td_items := [] |} in
  let dest_dir_prefix := sync_local_dir (request self) in
  add_items transfer_data (source_dir_prefix (request self)) dest_dir_prefix files_list.

(** [Synchronizer.sync_files_from_list] *)
Definition sync_files_from_list (self : Synchronizer) (files_list : list string)
    (source_uuid : option string) (dest_uuid : string) : M TransferResult :=
  let transfer_data := build_transfer_data self files_list source_uuid dest_uuid in
  call (SubmitTransfer transfer_data) (fun w => submit_transfer w transfer_data).

Definition listing_path (self : Request) : string :=
  "~/chroot/sddata/" ++ data_type self ++ "/" ++ PyStr.format_d (sync_year self)
  ++ "/" ++ sync_month self ++ "/".

(** The [if 'raw' in self.data_type: ... elif ...] chain of [synchronize]. *)
Definition listing_pattern (self : Request) : string :=
  let listing_pattern := "name:~*" ++ sync_pattern self ++ "*" in
  if PyStr.contains "raw" (data_type self)
  then "name:~*" ++ sync_pattern self ++ "*rawacf.bz2"
  else if PyStr.contains "dat" (data_type self)
  then "name:~*" ++ sync_pattern self ++ "*dat.bz2"
  else if PyStr.contains "fit" (data_type self)
  then "name:~*" ++ sync_pattern self ++ "*fitacf.gz"
  else if PyStr.contains "map" (data_type self)
  then "name:~*" ++ sync_pattern self ++ "*map"
  else if PyStr.contains "grid" (data_type self)
  then "name:~*" ++ sync_pattern self ++ "*grid"
  else if PyStr.contains "summary" (data_type self)
  then listing_pattern
  else listing_pattern.

Definition msg_transferring (n timeout : Z) : string :=
  "Transferring " ++ PyStr.format_d n ++ " files with a soft timeout of "
  ++ PyStr.format_d timeout ++ " s.".

Definition msg_still_running : string :=
  "Transfer didn't complete yet but may still be running. Please check " ++
  "https://www.globus.org/app/activity if you want to check status of transfer".

Definition msg_finished : string := "Transfer finished".

Definition msg_api_error (code message : string) : string :=
  "Globus API error" ++ PyStr.nl ++ "Error code: " ++ code ++ PyStr.nl
  ++ "Error message: " ++ message.

Definition msg_connection_error : string :=
  "Globus Connection Error - error communicating with REST API server".

Definition msg_timeout_error : string :=
  "Globus Timeout error - REST request timed out.".

Definition msg_network_error : string := "Network error".

(** [len(files_to_sync) * 30] *)
Definition task_max_duration_s (files_to_sync : list string) : Z :=
  Z.of_nat (List.length files_to_sync) * 30.

(** The [try] block of [synchronize]. *)
Definition synchronize_body (self : Synchronizer) : M unit :=
  let path := listing_path (request self) in
  let pattern := listing_pattern (request self) in
  listing <- call (OperationLs (mirror_uuid self) path pattern)
               (fun w => operation_ls w (mirror_uuid self) path pattern) ;;
  let files_to_sync := map entry_name listing in
  let timeout := task_max_duration_s files_to_sync in
  print (msg_transferring (Z.of_nat (List.length files_to_sync)) timeout) ;;
  transfer_result <- sync_files_from_list self files_to_sync None Config.PERSONAL_UUID ;;
  completed <- call (TaskWait (task_id transfer_result) timeout 30)
                 (fun w => task_wait w (task_id transfer_result) timeout 30) ;;
  if negb completed
  then print msg_still_running
  else print msg_finished.

(** The [except] clauses of [synchronize], in the order of the source. *)
Definition synchronize_handlers (e : exn) : option (M unit) :=
  match e with
  | GlobusAPIError code message => Some (print (msg_api_error code message))
  | GlobusConnectionError => Some (print msg_connection_error)
  | GlobusTimeoutError => Some (print msg_timeout_error)
  | NetworkError => Some (print msg_network_error)
  | _ => None
  end.

(** [Synchronizer.synchronize] *)
Definition synchronize (self : Synchronizer) : M unit :=
  try_except (synchronize_body self) synchronize_handlers.

(** The [__main__] block for a value of the module constant [CLIENT_ID],
    which the instructions at the top of the script tell the operator to
    fill in, given what [argparse] parsed. *)
Definition main_block (client_id : string) (args : Args) : M unit :=
  file <- ask rt_file ;;
  sync <- match file with
          | Some content => init client_id None (Some (PyStr.readline content)) args
          | None => init client_id None None args
          end ;;
  synchronize sync.

(** The [__main__] block of the script as it is, with [CLIENT_ID = '']. *)
Definition main (args : Args) : M unit := main_block Config.CLIENT_ID args.

(** ** What a run reports

    [synchronize] returns nothing: what the operator learns is the last line
    it prints. *)
Inductive SyncOutcome : Type :=
| Completed
| StillRunning
| Failed (reason : string).

Definition is_failure_line (line : string) : bool :=
  String.prefix "Globus API error" line
  || String.eqb line msg_connection_error
  || String.eqb line msg_timeout_error
  || String.eqb line msg_network_error.

Definition outcome_of_line (line : string) : option SyncOutcome :=
  if String.eqb line msg_finished then Some Completed
  else if String.eqb line msg_still_running then Some StillRunning
  else if is_failure_line line then Some (Failed line)
  else None.

Definition last_print (t : list event) : option string :=
  fold_left (fun acc e => match e with Print l => Some l | _ => acc end) t None.

Definition reported (t : list event) : option SyncOutcome :=
  match last_print t with
  | Some l => outcome_of_line l
  | None => None
  end.

(** The calls to the transfer service in a trace. *)
Definition is_remote (e : event) : bool :=
  match e with
  | Print _ | Input _ | OpenFile _ | WriteFile _ _ => false
  | _ => true
  end.

Definition remote_calls (t : list event) : list event := filter is_remote t.

(** The line an [except] clause of [synchronize] prints for [e], when one
    of the clauses matches. *)
Definition failure_line (e : exn) : option string :=
  match e with
  | GlobusAPIError code message => Some (msg_api_error code message)
  | GlobusConnectionError => Some msg_connection_error
  | GlobusTimeoutError => Some msg_timeout_error
  | NetworkError => Some msg_network_error
  | _ => None
  end.



(** Worlds for examples: June 2017, an operator who types a code, a
    service that answers every token request and every wait, and the given
    token file, write behaviour, search result, listing and submission. *)
Definition example_world (file : option string) (write : write_outcome)
    (search : result (list Endpoint)) (listing : result (list Entry))
    (submission : result TransferResult) : World :=
  {| now := (2017, 6);
     home := "/home/op";
     rt_file := file;
     rt_file_write := write;
     authorize_url := "https://auth.globus.org/authorize";
     stdin_line := " abc ";
     exchange_code_for_tokens := fun _ =>
       Ret [(transfer_server, mkTokenData "tok" "rt-new")];
     client_credentials_tokens := fun _ _ =>
       Ret [(transfer_server, mkTokenData "tok2" "none")];
     refresh_token_grant := fun _ => Ret "tok3";
     endpoint_search := fun _ => search;
     operation_ls := fun _ _ _ => listing;
     submit_transfer := fun _ => submission;
     service_task_wait := fun _ _ _ => Ret true |}.

Definition test_endpoints : list Endpoint :=
  [mkEndpoint "e1" (Some "someone@usask.ca") (Some "Official mirror");
   mkEndpoint "e2" (Some "kevin.krieger@usask.ca") (Some "Official SuperDARN mirror")].

Definition test_listing : list Entry :=
  [mkEntry "a.rawacf.bz2"; mkEntry "b.rawacf.bz2"].

(** A later run: the token file holds a refresh token. *)
Definition test_world : World :=
  example_world (Some "secret") WriteSucceeds (Ret test_endpoints) (Ret test_listing)
    (Ret (mkTransferResult "task-1")).

Definition test_args : Args := mkArgs 2007 1 "20070101*sas" "raw" "/data".

(** A client id as the operator would have filled it in. *)
Definition test_client_id : string := "cid".

(** The object [__init__] builds in [test_world] for [test_args]. *)
Definition test_sync : Synchronizer :=
  mkSynchronizer
    (make_request (2017, 6) test_client_id None (Some "secret")
       (Config.TRANSFER_RT_FILENAME "/home/op") test_args)
    (mkTransferClient (RefreshTokenAuthorizer "secret" test_client_id))
    "e2".

(** [test_world] with a listing that matches no file. *)
Definition no_files_world : World :=
  example_world (Some "secret") WriteSucceeds (Ret test_endpoints) (Ret [])
    (Ret (mkTransferResult "task-1")).

(** A first run (no token file yet) where the token file opens but the
    write fails. *)
Definition failing_write_world : World :=
  example_world None WriteRaises (Ret test_endpoints) (Ret test_listing)
    (Ret (mkTransferResult "task-1")).


(** A first run where the token file cannot be opened for writing. *)
Definition unwritable_world : World :=
  example_world None OpenRaises (Ret test_endpoints) (Ret test_listing)
    (Ret (mkTransferResult "task-1")).

(** A search whose first result has no contact e-mail set. *)
Definition null_contact_endpoints : list Endpoint :=
  [mkEndpoint "e0" None (Some "A personal endpoint");
   mkEndpoint "e2" (Some "kevin.krieger@usask.ca") (Some "Official SuperDARN mirror")].

(** * Properties *)

(** ** Decimal formatting and parsing *)

Section Decimal.

Import Decimal.

Lemma uint_of_zeros (k : nat) (s : string) (d : uint) :
  NilEmpty.uint_of_string s = Some d ->
  NilEmpty.uint_of_string (PyStr.zeros k ++ s) = Some (Nat.iter k D0 d).
Proof.
  intros Hs. induction k as [|k IH]; simpl.
  - exact Hs.
  - rewrite IH. reflexivity.
Qed.

Lemma of_uint_iter_zero (k : nat) (d : uint) :
  Pos.of_uint (Nat.iter k D0 d) = Pos.of_uint d.
Proof.
  induction k as [|k IH]; simpl; auto.
Qed.

Lemma to_uint_digits (n : N) :
  N.to_uint n <> Nil /\
  NilZero.string_of_uint (N.to_uint n) = NilEmpty.string_of_uint (N.to_uint n).
Proof.
  assert (H : N.to_uint n <> Nil).
  { destruct n as [|p]; simpl; [discriminate|].
    intro E. apply (f_equal Pos.of_uint) in E.
    rewrite DecimalPos.Unsigned.of_to in E. discriminate. }
  split; [exact H|]. destruct (N.to_uint n); [contradiction | reflexivity ..].
Qed.


Lemma first_digit_not_minus (d : uint) (c : ascii) (s : string) :
  NilEmpty.string_of_uint d = String c s -> Ascii.eqb c "-" = false.
Proof.
  destruct d; simpl; intros [= <- _]; reflexivity.
Qed.

Lemma int_padded (k : nat) (n : N) :
  PyStr.int (PyStr.zeros k ++ NilZero.string_of_uint (N.to_uint n)) = Some (Z.of_N n).
Proof.
  destruct (to_uint_digits n) as [Hnil ->].
  unfold PyStr.int.
  assert (Hu : NilEmpty.uint_of_string
                 (PyStr.zeros k ++ NilEmpty.string_of_uint (N.to_uint n))
               = Some (Nat.iter k D0 (N.to_uint n))).
  { apply uint_of_zeros, NilEmpty.usu. }
  assert (Hi : NilZero.int_of_string
                 (PyStr.zeros k ++ NilEmpty.string_of_uint (N.to_uint n))
               = Some (Pos (Nat.iter k D0 (N.to_uint n)))).
  { destruct k as [|k].
    - simpl in *. destruct (NilEmpty.string_of_uint (N.to_uint n)) as [|c s] eqn:E.
      + destruct (N.to_uint n); simpl in E; try discriminate. contradiction.
      + unfold NilZero.int_of_string.
        rewrite (first_digit_not_minus _ _ _ E).
        unfold NilZero.uint_of_string. rewrite Hu. reflexivity.
    - simpl PyStr.zeros in *. simpl append in *.
      unfold NilZero.int_of_string. simpl Ascii.eqb. cbv iota.
      unfold NilZero.uint_of_string. rewrite Hu. reflexivity. }
  rewrite Hi. simpl. unfold Z.of_uint. rewrite of_uint_iter_zero.
  rewrite DecimalN.Unsigned.of_to. reflexivity.
Qed.

End Decimal.

Lemma int_format_02d (n : Z) : PyStr.int (PyStr.format_02d n) = Some n.
Proof.
  unfold PyStr.format_02d. destruct n as [|p|p].
  - reflexivity.
  - change (String.length EmptyString) with 0%nat.
    change (EmptyString ++ ?x)%string with x.
    exact (int_padded _ (N.pos p)).
  - destruct (to_uint_digits (Z.abs_N (Z.neg p))) as [Hnil Hd].
    assert (Hlen : (2 - String.length "-"
                     - String.length (NilZero.string_of_uint (N.to_uint (Z.abs_N (Z.neg p)))))%nat
                   = 0%nat).
    { rewrite Hd. destruct (N.to_uint (Z.abs_N (Z.neg p))); simpl; try reflexivity.
      contradiction. }
    change (Z.neg p <? 0) with true. cbv iota.
    rewrite Hlen. simpl PyStr.zeros. simpl append.
    unfold PyStr.int, NilZero.int_of_string. simpl Ascii.eqb. cbv iota.
    rewrite NilZero.usu by exact Hnil. simpl.
    unfold Z.of_uint. simpl Z.abs_N. simpl N.to_uint.
    rewrite DecimalPos.Unsigned.of_to. reflexivity.
Qed.


Lemma py_int_format_02d (n : Z) : py_int (PyStr.format_02d n) = Ret n.
Proof.
  unfold py_int. rewrite int_format_02d. reflexivity.
Qed.

Example format_02d_1 : PyStr.format_02d 1 = "01".
Proof. reflexivity. Qed.

Example format_02d_0 : PyStr.format_02d 0 = "00".
Proof. reflexivity. Qed.

Example format_02d_13 : PyStr.format_02d 13 = "13".
Proof. reflexivity. Qed.

Example format_02d_neg : PyStr.format_02d (-1) = "-1".
Proof. reflexivity. Qed.

Example format_d_2007 : PyStr.format_d 2007 = "2007".
Proof. reflexivity. Qed.

Example int_01 : PyStr.int "01" = Some 1.
Proof. reflexivity. Qed.

Example strip_code : PyStr.strip " abc  " = "abc".
Proof. reflexivity. Qed.

Example contains_official : PyStr.contains "Official" "The Official mirror" = true.
Proof. reflexivity. Qed.

Example contains_summary_raw : PyStr.contains "raw" "summary" = false.
Proof. reflexivity. Qed.

(** ** Validation *)

(** [sanity_check] as a decision list, once the stored month parses to [m]. *)
Lemma sanity_check_parsed (r : Request) (m : Z) :
  py_int (sync_month r) = Ret m ->
  sanity_check r =
    if (sync_year r =? cur_year r) && (m >? cur_month r)
    then sys_exit (msg_future_month (sync_year r) (sync_month r))
    else if sync_year r >? cur_year r
    then sys_exit (msg_future_year (sync_year r))
    else if (m <? 1) || (m >? 12)
    then sys_exit (msg_invalid_month (sync_month r))
    else if negb (PyStr.mem (data_type r) (possible_data_types r))
    then sys_exit (msg_data_type data_types_repr)
    else Ret tt.
Proof.
  intros Hm. unfold sanity_check. rewrite Hm. simpl rbind.
  destruct (sync_year r =? cur_year r); simpl;
    destruct (m >? cur_month r); simpl; try reflexivity;
    destruct (sync_year r >? cur_year r); try reflexivity;
    destruct (m <? 1); simpl; try reflexivity;
    destruct (m >? 12); reflexivity.
Qed.

Lemma sanity_check_request (clock : Z * Z) (cid : string) (cs rt : option string)
    (fn : string) (args : Args) :
  sanity_check (make_request clock cid cs rt fn args) =
    if (arg_sync_year args =? fst clock) && (arg_sync_month args >? snd clock)
    then sys_exit (msg_future_month (arg_sync_year args)
                     (PyStr.format_02d (arg_sync_month args)))
    else if arg_sync_year args >? fst clock
    then sys_exit (msg_future_year (arg_sync_year args))
    else if (arg_sync_month args <? 1) || (arg_sync_month args >? 12)
    then sys_exit (msg_invalid_month (PyStr.format_02d (arg_sync_month args)))
    else if negb (PyStr.mem (arg_data_type args) data_types)
    then sys_exit (msg_data_type data_types_repr)
    else Ret tt.
Proof.
  rewrite (sanity_check_parsed _ (arg_sync_month args)).
  - reflexivity.
  - apply py_int_format_02d.
Qed.

(** C1 as stated fails: month 13 in the current year 2017 (current month 6)
    is rejected as a month in the future, not as an invalid month. *)
Lemma C1_month_13_current_year :
  let r := make_request (2017, 6) "id" None None "rt" (mkArgs 2017 13 "*" "raw" "/data") in
  ~ (1 <= 13 <= 12) /\
  sanity_check r = sys_exit "Year 2017 and month 13 is in the future. Exiting" /\
  sanity_check r <> sys_exit (msg_invalid_month (sync_month r)).
Proof.
  split; [lia|]. split; [reflexivity|]. vm_compute. discriminate.
Qed.

(** C1, amended: a month outside 1..12 always makes [sanity_check] exit; the
    message is the future-month one when the year is the current year and the
    month is beyond the current month, the future-year one when the year is
    beyond the current year, and the invalid-month one in every other case. *)
Theorem C1_month_out_of_range (clock : Z * Z) (cid : string) (cs rt : option string)
    (fn : string) (args : Args) :
  let r := make_request clock cid cs rt fn args in
  let y := arg_sync_year args in
  let m := arg_sync_month args in
  m < 1 \/ 12 < m ->
  (exists msg, sanity_check r = sys_exit msg) /\
  (y = cur_year r /\ cur_month r < m ->
     sanity_check r = sys_exit (msg_future_month y (sync_month r))) /\
  (cur_year r < y ->
     sanity_check r = sys_exit (msg_future_year y)) /\
  (y < cur_year r \/ (y = cur_year r /\ m <= cur_month r) ->
     sanity_check r = sys_exit (msg_invalid_month (sync_month r))).
Proof.
  intros r y m Hm. subst r y m. rewrite sanity_check_request. simpl.
  destruct (Z.eqb_spec (arg_sync_year args) (fst clock)) as [Hy|Hy];
    destruct (Z.gtb_spec (arg_sync_month args) (snd clock)) as [Hc|Hc];
    destruct (Z.gtb_spec (arg_sync_year args) (fst clock)) as [Hf|Hf];
    simpl;
    assert (Hbad : (arg_sync_month args <? 1) || (arg_sync_month args >? 12) = true)
      by (apply orb_true_iff; destruct Hm; [left; apply Z.ltb_lt | right; apply Z.gtb_lt]; lia);
    rewrite ?Hbad;
    (split; [eexists; reflexivity|]);
    repeat split; intros; try reflexivity; lia.
Qed.

Lemma C1_month_out_of_range_witness :
  (13 < 1 \/ 12 < 13) /\
  sanity_check (make_request (2017, 6) "id" None None "rt" (mkArgs 2007 13 "*" "raw" "/data"))
  = sys_exit (msg_invalid_month "13").
Proof.
  split; [right; lia|].
  apply (C1_month_out_of_range (2017, 6) "id" None None "rt" (mkArgs 2007 13 "*" "raw" "/data")).
  - simpl; lia.
  - simpl; lia.
Defined.

(** ** Running the monad *)

(** [__init__] stops at a failing [sanity_check] with nothing logged. *)
Lemma init_exit (cid : string) (cs rt : option string) (args : Args) (w : World)
    (msg : string) :
  sanity_check (make_request (now w) cid cs rt
                  (Config.TRANSFER_RT_FILENAME (home w)) args) = sys_exit msg ->
  init cid cs rt args w = ([], sys_exit msg).
Proof.
  intros H. unfold init, bind, ask, lift. rewrite H. reflexivity.
Qed.

Lemma main_init_exit (args : Args) (w : World) (msg : string) :
  (forall rt, init Config.CLIENT_ID None rt args w = ([], sys_exit msg)) ->
  main args w = ([], sys_exit msg).
Proof.
  intros H. unfold main, main_block. unfold bind at 1. unfold ask at 1.
  destruct (rt_file w) as [content|]; unfold bind; rewrite H; reflexivity.
Qed.

(** C8: a request for a year after the current year, or for a month after the
    current month in the current year, makes [__init__] (and so the whole
    run) exit with the future-year or future-month message, and the trace of
    the run up to that exit is empty: no call to the service was made. *)
Theorem C8_future_request_rejected (cid : string) (cs rt : option string)
    (args : Args) (w : World) :
  let y := arg_sync_year args in
  let m := arg_sync_month args in
  fst (now w) < y \/ (y = fst (now w) /\ snd (now w) < m) ->
  exists msg,
    (msg = msg_future_year y \/ msg = msg_future_month y (PyStr.format_02d m)) /\
    init cid cs rt args w = ([], sys_exit msg) /\
    remote_calls (trace (init cid cs rt args) w) = [] /\
    main args w = ([], sys_exit msg).
Proof.
  intros y m H. subst y m.
  assert (Hs : forall cid cs rt, exists msg,
    (msg = msg_future_year (arg_sync_year args) \/
     msg = msg_future_month (arg_sync_year args) (PyStr.format_02d (arg_sync_month args))) /\
    sanity_check (make_request (now w) cid cs rt
                    (Config.TRANSFER_RT_FILENAME (home w)) args) = sys_exit msg).
  { intros c s t. rewrite sanity_check_request.
    destruct H as [Hy | [Hy Hm]].
    - destruct (Z.eqb_spec (arg_sync_year args) (fst (now w))) as [E|E]; [lia|].
      simpl. destruct (Z.gtb_spec (arg_sync_year args) (fst (now w))); [|lia].
      eexists; split; [left; reflexivity | reflexivity].
    - destruct (Z.eqb_spec (arg_sync_year args) (fst (now w))) as [E|E]; [|lia].
      destruct (Z.gtb_spec (arg_sync_month args) (snd (now w))); [|lia].
      simpl. eexists; split; [right; reflexivity | reflexivity]. }
  destruct (Hs cid cs rt) as [msg [Hmsg Hsc]].
  exists msg. split; [exact Hmsg|].
  assert (Hi : forall c s t, init c s t args w = ([], sys_exit msg)).
  { intros c s t. apply init_exit.
    destruct (Hs c s t) as [msg' [_ Hsc']].
    rewrite sanity_check_request in Hsc, Hsc'. rewrite sanity_check_request.
    exact Hsc. }
  split; [apply Hi|]. split.
  - unfold trace. rewrite Hi. reflexivity.
  - apply main_init_exit. intros t. apply Hi.
Qed.

Lemma C8_future_request_rejected_witness :
  (2017 < 2018 \/ (2018 = 2017 /\ 6 < 1)) /\
  exists msg,
    (msg = msg_future_year 2018 \/ msg = msg_future_month 2018 (PyStr.format_02d 1)) /\
    init "id" None None (mkArgs 2018 1 "*" "raw" "/data") test_world = ([], sys_exit msg) /\
    remote_calls (trace (init "id" None None (mkArgs 2018 1 "*" "raw" "/data")) test_world) = [] /\
    main (mkArgs 2018 1 "*" "raw" "/data") test_world = ([], sys_exit msg).
Proof.
  split; [left; lia|].
  apply (C8_future_request_rejected "id" None None (mkArgs 2018 1 "*" "raw" "/data") test_world).
  left. simpl. lia.
Defined.

(** ** The transfer batch *)

Lemma add_items_items (td : TransferData) (src dst : string) (files : list string) :
  td_items (add_items td src dst files) =
  List.app (td_items td) (map (fun f => (src ++ "/" ++ f, dst ++ "/" ++ f)) files).
Proof.
  unfold add_items. revert td.
  induction files as [|f files IH]; intros td; simpl.
  - rewrite app_nil_r. reflexivity.
  - rewrite IH. simpl. rewrite <- app_assoc. reflexivity.
Qed.

Lemma add_items_fields (td : TransferData) (src dst : string) (files : list string) :
  td_source_endpoint (add_items td src dst files) = td_source_endpoint td /\
  td_destination_endpoint (add_items td src dst files) = td_destination_endpoint td /\
  td_label (add_items td src dst files) = td_label td /\
  td_sync_level (add_items td src dst files) = td_sync_level td /\
  td_notify_on_succeeded (add_items td src dst files) = td_notify_on_succeeded td /\
  td_notify_on_failed (add_items td src dst files) = td_notify_on_failed td.
Proof.
  unfold add_items. revert td.
  induction files as [|f files IH]; intros td; simpl.
  - repeat split.
  - exact (IH (add_item td (src ++ "/" ++ f) (dst ++ "/" ++ f))).
Qed.

(** C4: for a listing of N names the batch that [sync_files_from_list]
    builds and submits has exactly N items, the i-th being
    (source prefix + "/" + name, local directory + "/" + name) for the i-th
    name, with sync level checksum, no notification on success and
    notification on failure. *)
Theorem C4_batch_items (self : Synchronizer) (files : list string)
    (source_uuid : option string) (dest_uuid : string) (w : World) :
  let td := build_transfer_data self files source_uuid dest_uuid in
  trace (sync_files_from_list self files source_uuid dest_uuid) w = [SubmitTransfer td] /\
  List.length (td_items td) = List.length files /\
  td_items td =
    map (fun name => (source_dir_prefix (request self) ++ "/" ++ name,
                      sync_local_dir (request self) ++ "/" ++ name)) files /\
  (forall i name, nth_error files i = Some name ->
     nth_error (td_items td) i =
       Some (source_dir_prefix (request self) ++ "/" ++ name,
             sync_local_dir (request self) ++ "/" ++ name)) /\
  td_sync_level td = "checksum" /\
  td_notify_on_succeeded td = false /\
  td_notify_on_failed td = true.
Proof.
  intros td.
  assert (Hitems : td_items td =
    map (fun name => (source_dir_prefix (request self) ++ "/" ++ name,
                      sync_local_dir (request self) ++ "/" ++ name)) files).
  { subst td. unfold build_transfer_data. rewrite add_items_items. reflexivity. }
  split; [reflexivity|].
  split; [rewrite Hitems; apply length_map|].
  split; [exact Hitems|].
  split.
  - intros i name Hi. rewrite Hitems. rewrite nth_error_map, Hi. reflexivity.
  - subst td. unfold build_transfer_data.
    match goal with |- context [add_items ?t ?s ?d ?f] =>
      destruct (add_items_fields t s d f) as (_ & _ & _ & H4 & H5 & H6) end.
    rewrite H4, H5, H6. repeat split.
Qed.

(** ** Substring tests *)

Lemma append_assoc (a b c : string) : (a ++ b) ++ c = a ++ b ++ c.
Proof.
  induction a as [|x a IH]; simpl; [reflexivity | rewrite IH; reflexivity].
Qed.

Lemma prefix_iff (sub s : string) :
  String.prefix sub s = true <-> exists rest, s = sub ++ rest.
Proof.
  revert s. induction sub as [|a sub IH]; intros s.
  - split; [intros _; exists s; reflexivity | intros _; destruct s; reflexivity].
  - destruct s as [|b s]; simpl.
    + split; [discriminate | intros [rest H]; discriminate].
    + destruct (ascii_dec a b) as [->|Hab].
      * rewrite IH. split; intros [rest H]; exists rest.
        -- rewrite H. reflexivity.
        -- injection H as H. exact H.
      * split; [discriminate | intros [rest H]; injection H as H1 H2; congruence].
Qed.

(** [PyStr.contains] is the substring test of Python's [in]. *)
Lemma contains_iff (sub s : string) :
  PyStr.contains sub s = true <-> exists before rest, s = before ++ sub ++ rest.
Proof.
  induction s as [|c s IH].
  - change (PyStr.contains sub EmptyString)
      with (String.prefix sub EmptyString || false).
    rewrite orb_false_r, prefix_iff. split.
    + intros [rest H]. exists EmptyString, rest. exact H.
    + intros [before [rest H]]. destruct before; [exists rest; exact H | discriminate].
  - change (PyStr.contains sub (String c s))
      with (String.prefix sub (String c s) || PyStr.contains sub s).
    rewrite orb_true_iff, prefix_iff, IH. split.
    + intros [[rest H] | [before [rest H]]].
      * exists EmptyString, rest. exact H.
      * exists (String c before), rest. rewrite H. reflexivity.
    + intros [before [rest H]]. destruct before as [|x before].
      * left. exists rest. exact H.
      * right. injection H as _ H. exists before, rest. exact H.
Qed.

(** ** Endpoint resolution *)

(** What the test of line 217 does on one result. *)
Lemma is_mirror_cases (ep : Endpoint) :
  is_mirror ep =
    match ep_contact_email ep with
    | None => Raise TypeError
    | Some c =>
        if PyStr.contains maintainer c
        then match ep_description ep with
             | None => Raise TypeError
             | Some d => Ret (PyStr.contains marker d)
             end
        else Ret false
    end.
Proof.
  unfold is_mirror, py_in. destruct (ep_contact_email ep) as [c|]; [|reflexivity].
  cbn [rbind]. destruct (PyStr.contains maintainer c); [|reflexivity].
  destruct (ep_description ep); reflexivity.
Qed.

Lemma mirror_loop_cons (ep : Endpoint) (rest : list Endpoint) :
  mirror_loop (ep :: rest) =
    matches <-? is_mirror ep ; if (matches : bool) then Ret (ep_id ep) else mirror_loop rest.
Proof. reflexivity. Qed.

(** The loop skips the results on which the test is false. *)
Lemma mirror_loop_skip (pre rest : list Endpoint) :
  Forall (fun e => is_mirror e = Ret false) pre ->
  mirror_loop (pre ++ rest) = mirror_loop rest.
Proof.
  induction 1 as [|e pre He _ IH]; [reflexivity|].
  change ((e :: pre) ++ rest)%list with (e :: (pre ++ rest))%list.
  rewrite mirror_loop_cons, He. exact IH.
Qed.

(** The three ways the loop ends: at the first result passing both tests,
    after the last result when the test is false on all of them, or at the
    first result on which the test raises. *)
Lemma mirror_loop_cases (eps : list Endpoint) :
  (exists pre ep post,
     eps = (pre ++ ep :: post)%list /\
     Forall (fun e => is_mirror e = Ret false) pre /\
     is_mirror ep = Ret true /\
     mirror_loop eps = Ret (ep_id ep)) \/
  (Forall (fun e => is_mirror e = Ret false) eps /\
   mirror_loop eps = sys_exit msg_no_endpoint) \/
  (exists pre ep post,
     eps = (pre ++ ep :: post)%list /\
     Forall (fun e => is_mirror e = Ret false) pre /\
     is_mirror ep = Raise TypeError /\
     mirror_loop eps = Raise TypeError).
Proof.
  induction eps as [|e eps IH].
  - right; left. split; [constructor | reflexivity].
  - rewrite mirror_loop_cons. destruct (is_mirror e) as [[|]|x] eqn:He.
    + left. exists [], e, eps. repeat split; [constructor | exact He].
    + cbn [rbind].
      destruct IH as [(pre & ep & post & -> & Hpre & Hep & Hr)
                     | [[Hall Hr] | (pre & ep & post & -> & Hpre & Hep & Hr)]].
      * left. exists (e :: pre), ep, post. repeat split; auto.
      * right; left. split; [constructor; assumption | exact Hr].
      * right; right. exists (e :: pre), ep, post. repeat split; auto.
    + right; right. exists [], e, eps.
      assert (Hx : x = TypeError).
      { rewrite is_mirror_cases in He.
        destruct (ep_contact_email e); [|congruence].
        destruct (PyStr.contains maintainer s); [|discriminate].
        destruct (ep_description e); congruence. }
      subst x. repeat split; [constructor | exact He].
Qed.

(** C5 fails on the code for search results with an unset field: when the
    results before some result all fail the test, and that result has no
    contact e-mail, or a contact e-mail containing the maintainer's address
    but no description, the loop raises [TypeError] there. It neither skips
    that result nor exits with the no-endpoint message, and it does not
    reach a full match that comes later. *)
Theorem C5_null_field_raises (pre : list Endpoint) (ep : Endpoint)
    (post : list Endpoint) (w : World) :
  Forall (fun e => is_mirror e = Ret false) pre ->
  ep_contact_email ep = None \/
  (exists c, ep_contact_email ep = Some c /\
             PyStr.contains "kevin.krieger@usask.ca" c = true /\
             ep_description ep = None) ->
  endpoint_search w "SuperDARN mirror" = Ret (pre ++ ep :: post)%list ->
  mirror_loop (pre ++ ep :: post) = Raise TypeError /\
  get_superdarn_mirror_uuid w = ([EndpointSearch "SuperDARN mirror"], Raise TypeError).
Proof.
  intros Hpre Hnull Hsearch.
  assert (Hloop : mirror_loop (pre ++ ep :: post) = Raise TypeError).
  { rewrite (mirror_loop_skip pre _ Hpre), mirror_loop_cons, is_mirror_cases.
    destruct Hnull as [-> | (c & -> & Hc & ->)]; [reflexivity|].
    unfold maintainer. rewrite Hc. reflexivity. }
  split; [exact Hloop|].
  unfold get_superdarn_mirror_uuid, bind, call, lift. rewrite Hsearch, Hloop.
  reflexivity.
Qed.

Lemma C5_null_field_raises_witness :
  is_mirror (mkEndpoint "e2" (Some "kevin.krieger@usask.ca")
               (Some "Official SuperDARN mirror")) = Ret true /\
  mirror_loop null_contact_endpoints = Raise TypeError /\
  get_superdarn_mirror_uuid
    (example_world (Some "secret") WriteSucceeds (Ret null_contact_endpoints)
       (Ret test_listing) (Ret (mkTransferResult "task-1")))
  = ([EndpointSearch "SuperDARN mirror"], Raise TypeError).
Proof.
  split; [reflexivity|].
  apply (C5_null_field_raises []
           (mkEndpoint "e0" None (Some "A personal endpoint"))
           [mkEndpoint "e2" (Some "kevin.krieger@usask.ca")
              (Some "Official SuperDARN mirror")]
           (example_world (Some "secret") WriteSucceeds (Ret null_contact_endpoints)
              (Ret test_listing) (Ret (mkTransferResult "task-1")))).
  - constructor.
  - left. reflexivity.
  - reflexivity.
Defined.

(** ** Listing path and filter *)

Lemma mem_data_types (dt : string) :
  PyStr.mem dt data_types = true ->
  dt = "raw" \/ dt = "dat" \/ dt = "fit" \/ dt = "map" \/ dt = "grid" \/ dt = "summary".
Proof.
  unfold PyStr.mem, data_types. simpl. rewrite !orb_true_iff, !String.eqb_eq.
  intuition discriminate.
Qed.

Lemma sanity_check_ok (clock : Z * Z) (cid : string) (cs rt : option string)
    (fn : string) (args : Args) :
  sanity_check (make_request clock cid cs rt fn args) = Ret tt ->
  1 <= arg_sync_month args <= 12 /\ PyStr.mem (arg_data_type args) data_types = true.
Proof.
  rewrite sanity_check_request.
  destruct ((arg_sync_year args =? fst clock) && (arg_sync_month args >? snd clock));
    [discriminate|].
  destruct (arg_sync_year args >? fst clock); [discriminate|].
  destruct (Z.ltb_spec (arg_sync_month args) 1); [discriminate|].
  destruct (Z.gtb_spec (arg_sync_month args) 12); simpl; [discriminate|].
  match goal with |- context [negb ?b] => destruct b eqn:E end; simpl; [|discriminate].
  intros _. split; [lia | reflexivity].
Qed.

Lemma format_02d_month (m : Z) :
  1 <= m <= 12 ->
  exists d1 d2 : ascii,
    PyStr.format_02d m = String d1 (String d2 EmptyString) /\
    PyStr.is_digit d1 = true /\ PyStr.is_digit d2 = true.
Proof.
  intros H.
  assert (E : m = 1 \/ m = 2 \/ m = 3 \/ m = 4 \/ m = 5 \/ m = 6 \/
              m = 7 \/ m = 8 \/ m = 9 \/ m = 10 \/ m = 11 \/ m = 12) by lia.
  repeat (destruct E as [E | E];
          [subst m; eexists; eexists; split; [reflexivity | split; reflexivity] | ]).
  subst m; eexists; eexists; split; [reflexivity | split; reflexivity].
Qed.

(** C7: for every request that passes [sanity_check], the month stored in the
    object is exactly two decimal digits that read back as the month (so
    month 1 is ["01"]), the listing path is
    ["~/chroot/sddata/<type>/<year>/<two-digit month>/"], and the filter is
    ["name:~*<pattern>*"] followed by [rawacf.bz2] for raw, [dat.bz2] for dat,
    [fitacf.gz] for fit, [map] for map, [grid] for grid and by nothing for
    summary. *)
Theorem C7_listing_path_and_filter (clock : Z * Z) (cid : string) (cs rt : option string)
    (fn : string) (args : Args) :
  let r := make_request clock cid cs rt fn args in
  let wrapped := "name:~*" ++ arg_sync_pattern args ++ "*" in
  sanity_check r = Ret tt ->
  (exists d1 d2 : ascii,
     sync_month r = String d1 (String d2 EmptyString) /\
     PyStr.is_digit d1 = true /\ PyStr.is_digit d2 = true /\
     PyStr.int (sync_month r) = Some (arg_sync_month args) /\
     (arg_sync_month args = 1 -> sync_month r = "01") /\
     listing_path r =
       "~/chroot/sddata/" ++ arg_data_type args ++ "/" ++
       PyStr.format_d (arg_sync_year args) ++ "/" ++
       String d1 (String d2 EmptyString) ++ "/") /\
  (arg_data_type args = "raw" /\ listing_pattern r = wrapped ++ "rawacf.bz2" \/
   arg_data_type args = "dat" /\ listing_pattern r = wrapped ++ "dat.bz2" \/
   arg_data_type args = "fit" /\ listing_pattern r = wrapped ++ "fitacf.gz" \/
   arg_data_type args = "map" /\ listing_pattern r = wrapped ++ "map" \/
   arg_data_type args = "grid" /\ listing_pattern r = wrapped ++ "grid" \/
   arg_data_type args = "summary" /\ listing_pattern r = wrapped).
Proof.
  intros r wrapped Hok. apply sanity_check_ok in Hok. destruct Hok as [Hm Hdt].
  split.
  - destruct (format_02d_month _ Hm) as (d1 & d2 & E & H1 & H2).
    exists d1, d2. subst r. unfold listing_path. simpl. rewrite E.
    repeat split; auto.
    + rewrite <- E. apply int_format_02d.
    + intros E1. rewrite E1 in E. exact (eq_sym E).
  - subst r wrapped. unfold listing_pattern. simpl.
    apply mem_data_types in Hdt.
    destruct Hdt as [E | [E | [E | [E | [E | E]]]]]; rewrite E; simpl.
    + left. split; [reflexivity|]. rewrite !append_assoc. reflexivity.
    + right; left. split; [reflexivity|]. rewrite !append_assoc. reflexivity.
    + do 2 right; left. split; [reflexivity|]. rewrite !append_assoc. reflexivity.
    + do 3 right; left. split; [reflexivity|]. rewrite !append_assoc. reflexivity.
    + do 4 right; left. split; [reflexivity|]. rewrite !append_assoc. reflexivity.
    + do 5 right. split; reflexivity.
Qed.

Lemma C7_listing_path_and_filter_witness :
  sanity_check (make_request (2017, 6) "id" None None "rt" test_args) = Ret tt /\
  listing_pattern (make_request (2017, 6) "id" None None "rt" test_args)
    = "name:~*20070101*sas*rawacf.bz2" /\
  listing_path (make_request (2017, 6) "id" None None "rt" test_args)
    = "~/chroot/sddata/raw/2007/01/".
Proof.
  split; [reflexivity|].
  pose proof (C7_listing_path_and_filter (2017, 6) "id" None None "rt" test_args
                eq_refl) as [_ H].
  split; [|reflexivity].
  destruct H as [[_ H] | [[E _] | [[E _] | [[E _] | [[E _] | [E _]]]]]];
    [exact H | discriminate E ..].
Defined.

(** ** A run of [synchronize] *)

Example main_block_test_world :
  main_block test_client_id test_args test_world =
    ([RefreshTokenGrant "secret";
      EndpointSearch "SuperDARN mirror";
      OperationLs "e2" "~/chroot/sddata/raw/2007/01/" "name:~*20070101*sas*rawacf.bz2";
      Print "Transferring 2 files with a soft timeout of 60 s.";
      SubmitTransfer
        {| td_source_endpoint := "e2";
           td_destination_endpoint := Config.PERSONAL_UUID;
           td_label := "sync_files_from_list";
           td_sync_level := "checksum";
           td_notify_on_succeeded := false;
           td_notify_on_failed := true;
           td_items := [("/chroot/sddata/raw/2007/01//a.rawacf.bz2", "/data/a.rawacf.bz2");
                        ("/chroot/sddata/raw/2007/01//b.rawacf.bz2", "/data/b.rawacf.bz2")] |};
      TaskWait "task-1" 60 30;
      Print "Transfer finished"],
     Ret tt).
Proof. reflexivity. Qed.

Example init_test_world :
  init test_client_id None (Some "secret") test_args test_world =
    ([RefreshTokenGrant "secret"; EndpointSearch "SuperDARN mirror"], Ret test_sync).
Proof. reflexivity. Qed.

Example main_empty_client_id :
  main test_args test_world = ([], Raise ValueError).
Proof. reflexivity. Qed.

(** The trace and result of [synchronize] when the three calls to the
    service return. *)
Lemma synchronize_run (self : Synchronizer) (w : World) (listing : list Entry)
    (tr : TransferResult) (completed : bool) :
  let files := map entry_name listing in
  let td := build_transfer_data self files None Config.PERSONAL_UUID in
  let timeout := 30 * Z.of_nat (List.length files) in
  operation_ls w (mirror_uuid self) (listing_path (request self))
    (listing_pattern (request self)) = Ret listing ->
  submit_transfer w td = Ret tr ->
  task_wait w (task_id tr) timeout 30 = Ret completed ->
  synchronize self w =
    ([OperationLs (mirror_uuid self) (listing_path (request self))
        (listing_pattern (request self));
      Print (msg_transferring (Z.of_nat (List.length files)) timeout);
      SubmitTransfer td;
      TaskWait (task_id tr) timeout 30;
      Print (if completed then msg_finished else msg_still_running)],
     Ret tt).
Proof.
  intros files td timeout Hls Hsub Hwait.
  unfold synchronize, try_except, synchronize_body, sync_files_from_list,
    bind, call, print, task_max_duration_s.
  rewrite Hls. fold files. fold td. rewrite Hsub.
  replace (Z.of_nat (List.length files) * 30) with timeout by (subst timeout; lia).
  rewrite Hwait. destruct completed; reflexivity.
Qed.

(** C9: the timeout passed to [task_wait] is 30 times the number of listed
    files: [task_max_duration_s] of N names is 30 * N (150 for five), and in
    a run in which the listing returns N entries and the submission returns,
    the wait call in the trace carries exactly that timeout. *)
Theorem C9_soft_deadline (self : Synchronizer) (w : World) (listing : list Entry)
    (tr : TransferResult) :
  let files := map entry_name listing in
  let n := Z.of_nat (List.length listing) in
  operation_ls w (mirror_uuid self) (listing_path (request self))
    (listing_pattern (request self)) = Ret listing ->
  submit_transfer w (build_transfer_data self files None Config.PERSONAL_UUID) = Ret tr ->
  task_max_duration_s files = 30 * n /\
  (List.length listing = 5%nat -> task_max_duration_s files = 150) /\
  filter (fun e => match e with TaskWait _ _ _ => true | _ => false end)
    (trace (synchronize self) w) = [TaskWait (task_id tr) (30 * n) 30].
Proof.
  intros files n Hls Hsub.
  assert (Hlen : List.length files = List.length listing) by apply length_map.
  split; [|split].
  - unfold task_max_duration_s. rewrite Hlen. subst n. lia.
  - intros H5. unfold task_max_duration_s. rewrite Hlen, H5. reflexivity.
  - unfold trace, synchronize, try_except, synchronize_body, sync_files_from_list,
      bind, call, print, task_max_duration_s.
    rewrite Hls. fold files. rewrite Hsub. rewrite Hlen. fold n.
    replace (n * 30) with (30 * n) by lia.
    destruct (task_wait w (task_id tr) (30 * n) 30) as [[|]|e]; try reflexivity.
    destruct e; reflexivity.
Qed.

Lemma C9_soft_deadline_witness :
  operation_ls test_world (mirror_uuid test_sync) (listing_path (request test_sync))
    (listing_pattern (request test_sync))
    = Ret [mkEntry "a.rawacf.bz2"; mkEntry "b.rawacf.bz2"] /\
  filter (fun e => match e with TaskWait _ _ _ => true | _ => false end)
    (trace (synchronize test_sync) test_world) = [TaskWait "task-1" 60 30].
Proof.
  split; [reflexivity|].
  apply (C9_soft_deadline test_sync test_world
           [mkEntry "a.rawacf.bz2"; mkEntry "b.rawacf.bz2"] (mkTransferResult "task-1"));
    reflexivity.
Defined.

(** The script has no call that cancels a task: whatever the service
    answers, no [CancelTask] is logged. *)
Lemma synchronize_never_cancels (self : Synchronizer) (w : World) (task : string) :
  ~ In (CancelTask task) (trace (synchronize self) w).
Proof.
  unfold trace, synchronize, try_except, synchronize_body, sync_files_from_list,
    bind, call, print.
  destruct (operation_ls w _ _ _) as [listing|e1].
  - destruct (submit_transfer w _) as [tr|e2].
    + destruct (task_wait w _ _ _) as [[|]|e3].
      * simpl. intuition discriminate.
      * simpl. intuition discriminate.
      * destruct e3; simpl; intuition discriminate.
    + destruct e2; simpl; intuition discriminate.
  - destruct e1; simpl; intuition discriminate.
Qed.

(** C6: when the listing and the submission return and [task_wait] answers
    [completed] (true: the task finished within the timeout; false: the
    timeout elapsed first), [synchronize] returns normally, reports Completed
    for true and StillRunning for false, has made exactly the listing, the
    submission and the wait call, and has logged no call that cancels the
    task. *)
Theorem C6_wait_outcome (self : Synchronizer) (w : World) (listing : list Entry)
    (tr : TransferResult) (completed : bool) :
  let files := map entry_name listing in
  let td := build_transfer_data self files None Config.PERSONAL_UUID in
  let timeout := 30 * Z.of_nat (List.length files) in
  operation_ls w (mirror_uuid self) (listing_path (request self))
    (listing_pattern (request self)) = Ret listing ->
  submit_transfer w td = Ret tr ->
  task_wait w (task_id tr) timeout 30 = Ret completed ->
  outcome (synchronize self) w = Ret tt /\
  reported (trace (synchronize self) w)
    = Some (if completed then Completed else StillRunning) /\
  remote_calls (trace (synchronize self) w)
    = [OperationLs (mirror_uuid self) (listing_path (request self))
         (listing_pattern (request self));
       SubmitTransfer td;
       TaskWait (task_id tr) timeout 30] /\
  (forall task, ~ In (CancelTask task) (trace (synchronize self) w)).
Proof.
  intros files td timeout Hls Hsub Hwait.
  pose proof (synchronize_run self w listing tr completed Hls Hsub Hwait) as Hrun.
  fold files td timeout in Hrun.
  unfold outcome, trace. rewrite Hrun. simpl fst. simpl snd.
  split; [reflexivity|]. split; [destruct completed; reflexivity|].
  split; [reflexivity|].
  intros task. pose proof (synchronize_never_cancels self w task) as Hc.
  unfold trace in Hc. rewrite Hrun in Hc. exact Hc.
Qed.

Lemma C6_wait_outcome_witness :
  task_wait test_world "task-1" 60 30 = Ret true /\
  reported (trace (synchronize test_sync) test_world) = Some Completed /\
  (forall task, ~ In (CancelTask task) (trace (synchronize test_sync) test_world)).
Proof.
  split; [reflexivity|].
  pose proof (C6_wait_outcome test_sync test_world
                [mkEntry "a.rawacf.bz2"; mkEntry "b.rawacf.bz2"]
                (mkTransferResult "task-1") true eq_refl eq_refl eq_refl)
    as (_ & Hrep & _ & Hc).
  split; [exact Hrep | exact Hc].
Defined.

(** ** An empty listing *)

(** C2 fails on the code: when the listing returns no entry and the
    submission of the empty batch returns, [synchronize] calls [task_wait]
    with a timeout of 0 * 30 = 0, which the SDK refuses with [ValueError];
    no [except] clause names it, so the run ends with that exception right
    after the wait call. The last line printed is the announcing one, and
    the run reports neither Completed nor anything else. *)
Theorem C2_empty_listing_raises (self : Synchronizer) (w : World) (tr : TransferResult) :
  let td := build_transfer_data self [] None Config.PERSONAL_UUID in
  operation_ls w (mirror_uuid self) (listing_path (request self))
    (listing_pattern (request self)) = Ret [] ->
  submit_transfer w td = Ret tr ->
  td_items td = [] /\
  synchronize self w =
    ([OperationLs (mirror_uuid self) (listing_path (request self))
        (listing_pattern (request self));
      Print "Transferring 0 files with a soft timeout of 0 s.";
      SubmitTransfer td;
      TaskWait (task_id tr) 0 30],
     Raise ValueError) /\
  reported (trace (synchronize self) w) = None.
Proof.
  intros td Hls Hsub.
  assert (Hrun : synchronize self w =
    ([OperationLs (mirror_uuid self) (listing_path (request self))
        (listing_pattern (request self));
      Print "Transferring 0 files with a soft timeout of 0 s.";
      SubmitTransfer td;
      TaskWait (task_id tr) 0 30],
     Raise ValueError)).
  { unfold synchronize, try_except, synchronize_body, sync_files_from_list,
      bind, call, print.
    rewrite Hls. cbn [map]. fold td. rewrite Hsub. reflexivity. }
  split; [reflexivity|]. split; [exact Hrun|].
  unfold trace. rewrite Hrun. reflexivity.
Qed.

Lemma C2_empty_listing_raises_witness :
  operation_ls no_files_world (mirror_uuid test_sync)
    (listing_path (request test_sync)) (listing_pattern (request test_sync)) = Ret [] /\
  outcome (synchronize test_sync) no_files_world = Raise ValueError /\
  reported (trace (synchronize test_sync) no_files_world) <> Some Completed.
Proof.
  split; [reflexivity|].
  destruct (C2_empty_listing_raises test_sync no_files_world (mkTransferResult "task-1")
              eq_refl eq_refl) as (_ & Hrun & Hrep).
  split.
  - unfold outcome. rewrite Hrun. reflexivity.
  - rewrite Hrep. discriminate.
Defined.

(** ** The interactive login and the token file *)

Lemma oauth2_start_flow_ok (client_id : string) :
  client_id <> EmptyString -> oauth2_start_flow client_id = Ret tt.
Proof.
  destruct client_id; [contradiction | reflexivity].
Qed.

(** [get_auth_with_login] once the flow has started, the code has been
    exchanged and the transfer server's tokens found: what remains is the
    announcing line and the write of the token file. *)
Lemma get_auth_with_login_run (self : Request) (w : World) (resp : TokenResponse)
    (data : TokenData) :
  CLIENT_ID self <> EmptyString ->
  exchange_code_for_tokens w (PyStr.strip (stdin_line w)) = Ret resp ->
  by_resource_server resp transfer_server = Ret data ->
  get_auth_with_login self w =
    (List.app
       [Print (msg_login_url (authorize_url w));
        Input prompt_code;
        ExchangeCodeForTokens (PyStr.strip (stdin_line w));
        Print (msg_refresh_token (refresh_token data) (transfer_rt_filename self))]
       match rt_file_write w with
       | WriteSucceeds =>
           [OpenFile (transfer_rt_filename self);
            WriteFile (transfer_rt_filename self) (refresh_token data);
            Print msg_keep_secret]
       | OpenRaises => []
       | WriteRaises => [OpenFile (transfer_rt_filename self)]
       end,
     match rt_file_write w with
     | WriteSucceeds => Ret (AccessTokenAuthorizer (access_token data))
     | _ => Raise IOError
     end).
Proof.
  intros Hid Hex Hlook.
  unfold get_auth_with_login, bind, ask, print, input, call, lift, write_file, ret.
  rewrite (oauth2_start_flow_ok _ Hid), Hex, Hlook.
  destruct (rt_file_write w); reflexivity.
Qed.

(** C3 as stated fails: on a first run where the token file cannot be
    opened for writing, [get_auth_with_login] raises after the line that
    announces the token and returns no authorizer, and the whole run ends
    with that exception before any endpoint search, listing or transfer. *)
Lemma C3_unwritable_token_file_aborts :
  let r := make_request (2017, 6) test_client_id None None
             (Config.TRANSFER_RT_FILENAME "/home/op") test_args in
  let t := [Print "Please go to this URL and login: https://auth.globus.org/authorize";
            Input "Please enter the code you get after login here: ";
            ExchangeCodeForTokens "abc";
            Print ("Here is your refresh token: rt-new. It has been written to the file "
                   ++ "/home/op/.globus_transfer_rt")] in
  rt_file_write unwritable_world = OpenRaises /\
  get_auth_with_login r unwritable_world = (t, Raise IOError) /\
  main_block test_client_id test_args unwritable_world = (t, Raise IOError).
Proof.
  repeat split; reflexivity.
Qed.

(** C3, amended: in the interactive flow with a client id filled in, once
    the code has been exchanged for tokens, a token file that can be written
    is opened and written with the refresh token and the access-token
    authorizer is returned. If opening the file raises, or the write after a
    successful open raises, [get_auth_with_login] raises right there with no
    authorizer returned (in the second case the file has been opened, so
    created or truncated), and [__init__] on that path raises as well
    instead of returning an object to synchronize with: its only call to the
    service was the code exchange. *)
Theorem C3_token_file_write (self : Request) (w : World) (resp : TokenResponse)
    (data : TokenData) :
  let code := PyStr.strip (stdin_line w) in
  let path := transfer_rt_filename self in
  let t := [Print (msg_login_url (authorize_url w));
            Input prompt_code;
            ExchangeCodeForTokens code;
            Print (msg_refresh_token (refresh_token data) path)] in
  CLIENT_ID self <> EmptyString ->
  exchange_code_for_tokens w code = Ret resp ->
  by_resource_server resp transfer_server = Ret data ->
  get_auth_with_login self w =
    match rt_file_write w with
    | WriteSucceeds =>
        (List.app t [OpenFile path; WriteFile path (refresh_token data);
                     Print msg_keep_secret],
         Ret (AccessTokenAuthorizer (access_token data)))
    | OpenRaises => (t, Raise IOError)
    | WriteRaises => (List.app t [OpenFile path], Raise IOError)
    end /\
  (rt_file_write w <> WriteSucceeds ->
   forall cid args,
     cid <> EmptyString ->
     sanity_check (make_request (now w) cid None None
                     (Config.TRANSFER_RT_FILENAME (home w)) args) = Ret tt ->
     outcome (init cid None None args) w = Raise IOError /\
     remote_calls (trace (init cid None None args) w) = [ExchangeCodeForTokens code]).
Proof.
  intros code path t Hid Hex Hlook.
  split.
  - rewrite (get_auth_with_login_run self w resp data Hid Hex Hlook).
    subst t path code. destruct (rt_file_write w); reflexivity.
  - intros Hw cid args Hcid Hok.
    pose proof (get_auth_with_login_run
                  (make_request (now w) cid None None
                     (Config.TRANSFER_RT_FILENAME (home w)) args)
                  w resp data Hcid Hex Hlook) as Hauth.
    assert (Hinit : init cid None None args w =
              (fst (get_auth_with_login
                      (make_request (now w) cid None None
                         (Config.TRANSFER_RT_FILENAME (home w)) args) w),
               Raise IOError)).
    { cbv beta iota zeta delta [init bind ask lift]. rewrite Hok. cbv beta iota.
      unfold get_transfer_client. cbn [TRANSFER_RT CLIENT_SECRET make_request].
      unfold bind. rewrite Hauth.
      destruct (rt_file_write w); [contradiction | reflexivity | reflexivity]. }
    unfold outcome, trace. rewrite Hinit. split; [reflexivity|].
    cbn [fst]. rewrite Hauth.
    cbn [fst]. destruct (rt_file_write w); [contradiction | reflexivity | reflexivity].
Qed.

Lemma C3_token_file_write_witness :
  rt_file_write failing_write_world = WriteRaises /\
  get_auth_with_login (request test_sync) failing_write_world =
    ([Print "Please go to this URL and login: https://auth.globus.org/authorize";
      Input "Please enter the code you get after login here: ";
      ExchangeCodeForTokens "abc";
      Print ("Here is your refresh token: rt-new. It has been written to the file "
             ++ "/home/op/.globus_transfer_rt");
      OpenFile "/home/op/.globus_transfer_rt"],
     Raise IOError).
Proof.
  split; [reflexivity|].
  assert (Hid : CLIENT_ID (request test_sync) <> EmptyString) by discriminate.
  destruct (C3_token_file_write (request test_sync) failing_write_world
              [(transfer_server, mkTokenData "tok" "rt-new")]
              (mkTokenData "tok" "rt-new") Hid eq_refl eq_refl) as [H _].
  rewrite H. reflexivity.
Defined.

(** ** Source paths of the batch *)

(** C10: every source path of the batch is the source prefix, which already
    ends in a slash, followed by another slash and the file name, so it has
    two slashes between the month and the name; the listing path is the
    source prefix with a tilde in front, so it starts with a tilde and a
    slash where the source paths start with a slash, and the two differ. *)
Theorem C10_doubled_slash (self : Synchronizer) (files : list string)
    (source_uuid : option string) (dest_uuid : string) :
  let r := request self in
  let td := build_transfer_data self files source_uuid dest_uuid in
  let month_dir := "/chroot/sddata/" ++ data_type r ++ "/" ++
                   PyStr.format_d (sync_year r) ++ "/" ++ sync_month r in
  source_dir_prefix r = month_dir ++ "/" /\
  map fst (td_items td) = map (fun name => month_dir ++ "//" ++ name) files /\
  Forall (fun src => String.prefix "/" src = true) (map fst (td_items td)) /\
  listing_path r = "~" ++ source_dir_prefix r /\
  String.prefix "~/" (listing_path r) = true /\
  String.prefix "/" (source_dir_prefix r) = true /\
  String.prefix "~/" (source_dir_prefix r) = false /\
  listing_path r <> source_dir_prefix r.
Proof.
  intros r td month_dir.
  assert (Hpre : source_dir_prefix r = month_dir ++ "/").
  { subst month_dir. unfold source_dir_prefix. rewrite !append_assoc. reflexivity. }
  assert (Hsrc : map fst (td_items td) = map (fun name => month_dir ++ "//" ++ name) files).
  { subst td. unfold build_transfer_data. rewrite add_items_items. cbn [td_items List.app].
    rewrite map_map. apply map_ext. intros name. cbn [fst]. fold r.
    rewrite Hpre, append_assoc. reflexivity. }
  split; [exact Hpre|]. split; [exact Hsrc|]. split.
  - rewrite Hsrc. apply Forall_forall. intros src Hin.
    apply in_map_iff in Hin. destruct Hin as [name [<- _]]. reflexivity.
  - repeat split; try reflexivity. discriminate.
Qed.

(** ** The month iterator *)

Example month_year_iterator_winter :
  month_year_iterator 11 2016 2 2017 = [(2016, 11); (2016, 12); (2017, 1)].
Proof. reflexivity. Qed.

Lemma py_range_length (a b : Z) : List.length (py_range a b) = Z.to_nat (b - a).
Proof.
  unfold py_range. rewrite length_map, length_seq. reflexivity.
Qed.

Lemma py_range_In (a b x : Z) : In x (py_range a b) <-> a <= x < b.
Proof.
  unfold py_range. rewrite in_map_iff. split.
  - intros [i [<- Hi]]. apply in_seq in Hi. lia.
  - intros H. exists (Z.to_nat (x - a)). split; [lia|]. apply in_seq. lia.
Qed.

Lemma py_range_nth (a b : Z) (i : nat) :
  (i < Z.to_nat (b - a))%nat ->
  nth_error (py_range a b) i = Some (a + Z.of_nat i).
Proof.
  intros Hi. unfold py_range. rewrite nth_error_map.
  rewrite nth_error_seq. destruct (Nat.ltb_spec i (Z.to_nat (b - a))); [reflexivity | lia].
Qed.

Lemma month_year_iterator_nth (sm sy em ey : Z) (i : nat) :
  (i < Z.to_nat (12 * ey + em - (12 * sy + sm)))%nat ->
  nth_error (month_year_iterator sm sy em ey) i =
    Some ((12 * sy + sm - 1 + Z.of_nat i) / 12,
          (12 * sy + sm - 1 + Z.of_nat i) mod 12 + 1).
Proof.
  intros Hi. unfold month_year_iterator. rewrite nth_error_map.
  rewrite py_range_nth by lia. reflexivity.
Qed.

(** X1: [month_year_iterator] yields one pair per month from the start month
    up to, but not including, the end month: their number is the month
    distance 12 * (end_year - start_year) + (end_month - start_month) when
    that is positive, and nothing is yielded when the end is not after the
    start. *)
Theorem X1_iterator_length (sm sy em ey : Z) :
  Z.of_nat (List.length (month_year_iterator sm sy em ey))
    = Z.max 0 (12 * (ey - sy) + (em - sm)) /\
  (month_year_iterator sm sy em ey = [] <-> 12 * ey + em <= 12 * sy + sm).
Proof.
  assert (Hlen : List.length (month_year_iterator sm sy em ey)
                 = Z.to_nat (12 * (ey - sy) + (em - sm))).
  { unfold month_year_iterator. rewrite length_map, py_range_length. f_equal. lia. }
  split.
  - rewrite Hlen. lia.
  - split.
    + intros E. rewrite E in Hlen. cbn [List.length] in Hlen. lia.
    + intros H. apply length_zero_iff_nil. rewrite Hlen. lia.
Qed.

Lemma iterator_In (sm sy em ey y m : Z) :
  In (y, m) (month_year_iterator sm sy em ey) <->
  1 <= m <= 12 /\ 12 * sy + sm <= 12 * y + m < 12 * ey + em.
Proof.
  unfold month_year_iterator. rewrite in_map_iff. split.
  - intros [ym [E Hin]]. apply py_range_In in Hin.
    unfold divmod in E. injection E as <- <-.
    Z.div_mod_to_equations. lia.
  - intros [Hm Hr]. exists (12 * y + m - 1). split.
    + unfold divmod. f_equal; Z.div_mod_to_equations; lia.
    + apply py_range_In. lia.
Qed.

(** X2: a pair (y, m) is yielded by [month_year_iterator] exactly when m is a
    month number from 1 to 12 and the month (y, m) lies from the start month
    (included) to the end month (excluded), counting months as 12 * y + m;
    this holds for any integer arguments, also months outside 1..12. Every
    month of that span is yielded once. *)
Theorem X2_iterator_membership (sm sy em ey : Z) :
  (forall y m,
     In (y, m) (month_year_iterator sm sy em ey) <->
     1 <= m <= 12 /\ 12 * sy + sm <= 12 * y + m < 12 * ey + em) /\
  NoDup (month_year_iterator sm sy em ey).
Proof.
  split; [intros y m; apply iterator_In|].
  unfold month_year_iterator.
  apply NoDup_map_NoDup_ForallPairs.
  - intros a b _ _ E. unfold divmod in E. injection E as E1 E2.
    Z.div_mod_to_equations. lia.
  - unfold py_range. apply NoDup_map_NoDup_ForallPairs.
    + intros i j _ _ E. lia.
    + apply seq_NoDup.
Qed.

(** X3: consecutive yields of [month_year_iterator] are consecutive calendar
    months: after (y, m) with m below 12 comes (y, m + 1), and after (y, 12)
    comes (y + 1, 1). *)
Theorem X3_iterator_successor (sm sy em ey : Z) (i : nat) (y m y' m' : Z) :
  nth_error (month_year_iterator sm sy em ey) i = Some (y, m) ->
  nth_error (month_year_iterator sm sy em ey) (S i) = Some (y', m') ->
  (m < 12 /\ y' = y /\ m' = m + 1) \/ (m = 12 /\ y' = y + 1 /\ m' = 1).
Proof.
  intros H1 H2.
  assert (Hi : (S i < Z.to_nat (12 * ey + em - (12 * sy + sm)))%nat).
  { assert (Hl : (S i < List.length (month_year_iterator sm sy em ey))%nat)
      by (apply nth_error_Some; rewrite H2; discriminate).
    revert Hl. unfold month_year_iterator. rewrite length_map, py_range_length.
    intros Hl. replace (12 * ey + em - (12 * sy + sm))
      with (12 * ey + em - 1 - (12 * sy + sm - 1)) by lia. exact Hl. }
  rewrite month_year_iterator_nth in H1 by lia.
  rewrite month_year_iterator_nth in H2 by lia.
  injection H1 as <- <-. injection H2 as <- <-.
  replace (Z.of_nat (S i)) with (Z.of_nat i + 1) by lia.
  Z.div_mod_to_equations. lia.
Qed.

Lemma X3_iterator_successor_witness :
  nth_error (month_year_iterator 11 2016 2 2017) 1 = Some (2016, 12) /\
  ((12 < 12 /\ 2017 = 2016 /\ 1 = 12 + 1) \/ (12 = 12 /\ 2017 = 2016 + 1 /\ 1 = 1)).
Proof.
  split; [reflexivity|].
  apply (X3_iterator_successor 11 2016 2 2017 1 2016 12 2017 1); reflexivity.
Defined.

(** X4: for a start month and an end month both in 1..12 with the start
    before the end, the first pair [month_year_iterator] yields is
    (start_year, start_month), the last is the month just before
    (end_year, end_month), and (end_year, end_month) itself is not yielded. *)
Theorem X4_iterator_bounds (sm sy em ey : Z) :
  1 <= sm <= 12 -> 1 <= em <= 12 -> 12 * sy + sm < 12 * ey + em ->
  let l := month_year_iterator sm sy em ey in
  nth_error l 0 = Some (sy, sm) /\
  nth_error l (List.length l - 1) =
    Some (if em =? 1 then (ey - 1, 12) else (ey, em - 1)) /\
  ~ In (ey, em) l.
Proof.
  intros Hs He Hlt l.
  assert (Hlen : List.length l = Z.to_nat (12 * ey + em - (12 * sy + sm))).
  { subst l. unfold month_year_iterator. rewrite length_map, py_range_length.
    f_equal. lia. }
  split; [|split].
  - subst l. rewrite month_year_iterator_nth by lia.
    f_equal. f_equal; Z.div_mod_to_equations; lia.
  - subst l. rewrite month_year_iterator_nth by lia. rewrite Hlen.
    replace (Z.of_nat (Z.to_nat (12 * ey + em - (12 * sy + sm)) - 1))
      with (12 * ey + em - (12 * sy + sm) - 1) by lia.
    destruct (Z.eqb_spec em 1); f_equal; f_equal; Z.div_mod_to_equations; lia.
  - subst l. rewrite iterator_In. lia.
Qed.

Lemma X4_iterator_bounds_witness :
  (1 <= 11 <= 12 /\ 1 <= 2 <= 12 /\ 12 * 2016 + 11 < 12 * 2017 + 2) /\
  nth_error (month_year_iterator 11 2016 2 2017) 0 = Some (2016, 11) /\
  ~ In (2017, 2) (month_year_iterator 11 2016 2 2017).
Proof.
  split; [lia|].
  pose proof (X4_iterator_bounds 11 2016 2 2017) as H.
  destruct H as (H0 & _ & Hin); [lia | lia | lia |].
  split; [exact H0 | exact Hin].
Defined.

(** ** More on validation *)

(** X5: for the object [__init__] builds, [sanity_check] returns normally
    exactly when the requested month is not after the current month (year
    before the current year, or the current year with a month up to the
    current one), the month is in 1..12 and the data type is one of raw, dat,
    fit, map, grid, summary. *)
Theorem X5_sanity_check_accepts (clock : Z * Z) (cid : string) (cs rt : option string)
    (fn : string) (args : Args) :
  sanity_check (make_request clock cid cs rt fn args) = Ret tt <->
  (arg_sync_year args < fst clock \/
   (arg_sync_year args = fst clock /\ arg_sync_month args <= snd clock)) /\
  1 <= arg_sync_month args <= 12 /\
  In (arg_data_type args) ["raw"; "dat"; "fit"; "map"; "grid"; "summary"].
Proof.
  rewrite sanity_check_request.
  assert (Hmem : PyStr.mem (arg_data_type args) data_types = true <->
                 In (arg_data_type args) ["raw"; "dat"; "fit"; "map"; "grid"; "summary"]).
  { unfold PyStr.mem. rewrite existsb_exists. split.
    - intros [x [Hin E]]. apply String.eqb_eq in E. subst x. exact Hin.
    - intros Hin. exists (arg_data_type args). split; [exact Hin | apply String.eqb_refl]. }
  destruct (Z.eqb_spec (arg_sync_year args) (fst clock)) as [Hy|Hy];
    destruct (Z.gtb_spec (arg_sync_month args) (snd clock)) as [Hc|Hc];
    destruct (Z.gtb_spec (arg_sync_year args) (fst clock)) as [Hf|Hf];
    destruct (Z.ltb_spec (arg_sync_month args) 1) as [H1|H1];
    destruct (Z.gtb_spec (arg_sync_month args) 12) as [H12|H12];
    cbn [andb orb];
    try (split; [discriminate | intros (? & ? & ?); lia]);
    destruct (PyStr.mem (arg_data_type args) data_types) eqn:E; cbn [negb];
    (split; [try discriminate; intros _; repeat split; try lia; apply Hmem; reflexivity
            | try reflexivity; intros (_ & _ & Hin); apply Hmem in Hin; discriminate]).
Qed.

(** X6: a request that is not in the future and has a month in 1..12 but a
    data type outside the six known ones makes [sanity_check] exit with the
    data-type message, and [__init__] stops there with nothing logged. *)
Theorem X6_unknown_data_type (cid : string) (cs rt : option string)
    (args : Args) (w : World) :
  arg_sync_year args < fst (now w) \/
  (arg_sync_year args = fst (now w) /\ arg_sync_month args <= snd (now w)) ->
  1 <= arg_sync_month args <= 12 ->
  ~ In (arg_data_type args) ["raw"; "dat"; "fit"; "map"; "grid"; "summary"] ->
  init cid cs rt args w =
    ([], sys_exit ("Data type can only be one of "
                   ++ "['raw', 'dat', 'fit', 'map', 'grid', 'summary']" ++ ". Exiting")).
Proof.
  intros Hnf Hm Hdt. apply init_exit. rewrite sanity_check_request.
  assert (E : PyStr.mem (arg_data_type args) data_types = false).
  { destruct (PyStr.mem (arg_data_type args) data_types) eqn:E; [|reflexivity].
    exfalso. apply Hdt. unfold PyStr.mem in E. apply existsb_exists in E.
    destruct E as [x [Hin E]]. apply String.eqb_eq in E. subst x. exact Hin. }
  cbn [fst snd].
  destruct (Z.eqb_spec (arg_sync_year args) (fst (now w)));
    destruct (Z.gtb_spec (arg_sync_month args) (snd (now w)));
    destruct (Z.gtb_spec (arg_sync_year args) (fst (now w)));
    destruct (Z.ltb_spec (arg_sync_month args) 1);
    destruct (Z.gtb_spec (arg_sync_month args) 12);
    try lia; cbn [andb orb]; rewrite E; reflexivity.
Qed.

Lemma X6_unknown_data_type_witness :
  ~ In "rawacf" ["raw"; "dat"; "fit"; "map"; "grid"; "summary"] /\
  outcome (init "id" None None (mkArgs 2007 1 "*" "rawacf" "/data")) test_world
    = sys_exit "Data type can only be one of ['raw', 'dat', 'fit', 'map', 'grid', 'summary']. Exiting".
Proof.
  assert (H : ~ In "rawacf" ["raw"; "dat"; "fit"; "map"; "grid"; "summary"]).
  { simpl. intuition discriminate. }
  split; [exact H|].
  unfold outcome.
  rewrite (X6_unknown_data_type "id" None None (mkArgs 2007 1 "*" "rawacf" "/data") test_world).
  - reflexivity.
  - left. simpl. lia.
  - simpl. lia.
  - exact H.
Defined.

(** X7: whatever the arguments, [sanity_check] on the object [__init__]
    builds either returns or exits through [sys.exit] with one of its four
    messages; in particular the [int()] of the stored month never fails. *)
Theorem X7_sanity_check_only_exits (clock : Z * Z) (cid : string) (cs rt : option string)
    (fn : string) (args : Args) :
  let r := make_request clock cid cs rt fn args in
  sanity_check r = Ret tt \/
  sanity_check r = sys_exit (msg_future_month (sync_year r) (sync_month r)) \/
  sanity_check r = sys_exit (msg_future_year (sync_year r)) \/
  sanity_check r = sys_exit (msg_invalid_month (sync_month r)) \/
  sanity_check r = sys_exit (msg_data_type data_types_repr).
Proof.
  intros r. subst r. rewrite sanity_check_request. cbn [sync_year sync_month make_request].
  destruct ((arg_sync_year args =? fst clock) && (arg_sync_month args >? snd clock));
    [right; left; reflexivity|].
  destruct (arg_sync_year args >? fst clock); [do 2 right; left; reflexivity|].
  destruct ((arg_sync_month args <? 1) || (arg_sync_month args >? 12));
    [do 3 right; left; reflexivity|].
  destruct (negb (PyStr.mem (arg_data_type args) data_types));
    [do 4 right; reflexivity | left; reflexivity].
Qed.

(** ** The stored month *)

Lemma length_append (a b : string) :
  String.length (a ++ b) = (String.length a + String.length b)%nat.
Proof.
  induction a as [|c a IH]; simpl; [reflexivity | rewrite IH; reflexivity].
Qed.

Lemma length_zeros (k : nat) : String.length (PyStr.zeros k) = k.
Proof.
  induction k as [|k IH]; simpl; [reflexivity | rewrite IH; reflexivity].
Qed.

(** X8: for every integer month argument the string [__init__] stores with
    the two-digit format is at least two characters long and [int()] reads
    it back as the same integer, so the comparisons of [sanity_check] are
    made on the month that was asked for. *)
Theorem X8_month_string_round_trip (clock : Z * Z) (cid : string) (cs rt : option string)
    (fn : string) (args : Args) :
  let r := make_request clock cid cs rt fn args in
  sync_month r = PyStr.format_02d (arg_sync_month args) /\
  py_int (sync_month r) = Ret (arg_sync_month args) /\
  (2 <= String.length (sync_month r))%nat.
Proof.
  intros r. subst r. cbn [sync_month make_request].
  split; [reflexivity|]. split; [apply py_int_format_02d|].
  unfold PyStr.format_02d. rewrite !length_append, length_zeros. lia.
Qed.

(** ** Traces of composed computations *)


Lemma outcome_bind {A B : Type} (m : M A) (k : A -> M B) (w : World) :
  outcome (bind m k) w =
    match outcome m w with
    | Ret a => outcome (k a) w
    | Raise e => Raise e
    end.
Proof.
  unfold outcome, bind. destruct (m w) as [t [a|e]]; simpl.
  - destruct (k a w); reflexivity.
  - reflexivity.
Qed.

Lemma run_eta {A : Type} (m : M A) (w : World) : m w = (trace m w, outcome m w).
Proof.
  unfold trace, outcome. destruct (m w); reflexivity.
Qed.

(** [__init__] with a refresh token: the checks, the start of the flow,
    the token request of the authorizer, then one endpoint search. *)
Lemma init_refresh_run (cid : string) (cs : option string) (rt : string)
    (args : Args) (w : World) :
  init cid cs (Some rt) args w =
    match sanity_check (make_request (now w) cid cs (Some rt)
                          (Config.TRANSFER_RT_FILENAME (home w)) args) with
    | Raise e => ([], Raise e)
    | Ret _ =>
        match oauth2_start_flow cid with
        | Raise e => ([], Raise e)
        | Ret _ =>
            match refresh_token_grant w rt with
            | Raise e => ([RefreshTokenGrant rt], Raise e)
            | Ret _ =>
                ([RefreshTokenGrant rt; EndpointSearch "SuperDARN mirror"],
                 uuid <-? (eps <-? endpoint_search w "SuperDARN mirror" ;
                           mirror_loop eps) ;
                 Ret (mkSynchronizer
                        (make_request (now w) cid cs (Some rt)
                           (Config.TRANSFER_RT_FILENAME (home w)) args)
                        (mkTransferClient (RefreshTokenAuthorizer rt cid)) uuid))
            end
        end
    end.
Proof.
  unfold init. cbv beta iota zeta delta [bind ask lift].
  destruct (sanity_check _) as [[]|e]; [|reflexivity].
  unfold get_transfer_client. cbn [TRANSFER_RT make_request].
  unfold get_refresh_token_authorizer, get_superdarn_mirror_uuid, bind, ret, call, lift.
  change (CLIENT_ID (make_request (now w) cid cs (Some rt)
                       (Config.TRANSFER_RT_FILENAME (home w)) args)) with cid.
  destruct (oauth2_start_flow cid) as [[]|e]; [|reflexivity].
  destruct (refresh_token_grant w rt) as [tok|e]; [|reflexivity].
  destruct (endpoint_search w "SuperDARN mirror") as [eps|e]; [|reflexivity].
  cbn [rbind]. destruct (mirror_loop eps); reflexivity.
Qed.


(** The [__main__] block when the token file exists. *)
Lemma main_block_with_token_file (cid : string) (args : Args) (w : World)
    (content : string) :
  rt_file w = Some content ->
  main_block cid args w =
    bind (init cid None (Some (PyStr.readline content)) args) synchronize w.
Proof.
  intros H. unfold main_block. unfold bind at 1. unfold ask. rewrite H.
  destruct (bind _ _ w). reflexivity.
Qed.



(** ** Which login is used *)



Lemma by_resource_server_missing (d : TokenResponse) (key : string) :
  (forall v, ~ In (key, v) d) -> by_resource_server d key = Raise (KeyError key).
Proof.
  induction d as [|[k v] d IH]; intros H; simpl; [reflexivity|].
  destruct (String.eqb_spec k key) as [->|Hk].
  - exfalso. apply (H v). left. reflexivity.
  - apply IH. intros v' Hin. apply (H v'). right. exact Hin.
Qed.

(** X10: with no refresh token but a client secret, [get_transfer_client]
    makes exactly one call, the client-credentials exchange, and neither
    prompts nor writes the token file. It returns a client that carries the
    access token found under the transfer server's key, raises what the
    exchange raises, and raises [KeyError] when the response has no entry
    for the transfer server. *)
Theorem X10_client_secret_path (self : Request) (w : World) (secret : string) :
  TRANSFER_RT self = None ->
  CLIENT_SECRET self = Some secret ->
  get_transfer_client self w =
    ([ClientCredentialsTokens (CLIENT_ID self) secret],
     resp <-? client_credentials_tokens w (CLIENT_ID self) secret ;
     data <-? by_resource_server resp "transfer.api.globus.org" ;
     Ret (mkTransferClient (AccessTokenAuthorizer (access_token data)))) /\
  (forall resp,
     client_credentials_tokens w (CLIENT_ID self) secret = Ret resp ->
     (forall data, ~ In ("transfer.api.globus.org", data) resp) ->
     outcome (get_transfer_client self) w = Raise (KeyError "transfer.api.globus.org")).
Proof.
  intros Hrt Hcs.
  assert (Hrun : get_transfer_client self w =
    ([ClientCredentialsTokens (CLIENT_ID self) secret],
     resp <-? client_credentials_tokens w (CLIENT_ID self) secret ;
     data <-? by_resource_server resp "transfer.api.globus.org" ;
     Ret (mkTransferClient (AccessTokenAuthorizer (access_token data))))).
  { unfold get_transfer_client. rewrite Hrt, Hcs.
    unfold get_client_secret_authorizer, bind, call, lift, ret, transfer_server.
    destruct (client_credentials_tokens w (CLIENT_ID self) secret) as [resp|e];
      [|reflexivity].
    cbn [rbind]. destruct (by_resource_server resp "transfer.api.globus.org");
      reflexivity. }
  split; [exact Hrun|].
  intros resp Hresp Hmiss. unfold outcome. rewrite Hrun, Hresp. cbn [snd rbind].
  rewrite by_resource_server_missing by exact Hmiss. reflexivity.
Qed.

Lemma X10_client_secret_path_witness :
  CLIENT_SECRET (make_request (2017, 6) "id" (Some "s3cret") None "rt" test_args)
    = Some "s3cret" /\
  get_transfer_client (make_request (2017, 6) "id" (Some "s3cret") None "rt" test_args)
    test_world
  = ([ClientCredentialsTokens "id" "s3cret"],
     Ret (mkTransferClient (AccessTokenAuthorizer "tok2"))).
Proof.
  split; [reflexivity|].
  destruct (X10_client_secret_path
              (make_request (2017, 6) "id" (Some "s3cret") None "rt" test_args)
              test_world "s3cret" eq_refl eq_refl) as [H _].
  rewrite H. reflexivity.
Defined.



(** ** The token file from one run to the next *)










(** ** Errors of the service *)

Lemma failure_line_reported (e : exn) (line : string) (t : list event) :
  failure_line e = Some line ->
  reported (t ++ [Print line]) = Some (Failed line).
Proof.
  intros H. unfold reported, last_print. rewrite fold_left_app. cbn [fold_left].
  destruct e; try discriminate H; injection H as <-; reflexivity.
Qed.

(** X14: when the listing call raises one of the four Globus errors,
    [synchronize] prints the line of the matching [except] clause and
    returns normally; nothing is submitted and nothing is waited for, and
    the run reports Failed with that line. *)
Theorem X14_listing_error (self : Synchronizer) (w : World) (e : exn) (line : string) :
  failure_line e = Some line ->
  operation_ls w (mirror_uuid self) (listing_path (request self))
    (listing_pattern (request self)) = Raise e ->
  synchronize self w =
    ([OperationLs (mirror_uuid self) (listing_path (request self))
        (listing_pattern (request self));
      Print line],
     Ret tt) /\
  reported (trace (synchronize self) w) = Some (Failed line).
Proof.
  intros Hline Hls.
  assert (Hrun : synchronize self w =
    ([OperationLs (mirror_uuid self) (listing_path (request self))
        (listing_pattern (request self))] ++ [Print line], Ret tt)%list).
  { unfold synchronize, try_except, synchronize_body, bind, call. rewrite Hls.
    destruct e; try discriminate Hline; injection Hline as <-; reflexivity. }
  split; [exact Hrun|].
  unfold trace. rewrite Hrun. apply (failure_line_reported e). exact Hline.
Qed.

Lemma X14_listing_error_witness :
  failure_line (GlobusAPIError "404" "not found")
    = Some (msg_api_error "404" "not found") /\
  reported (trace (synchronize test_sync)
              (example_world (Some "secret") WriteSucceeds (Ret test_endpoints)
                 (Raise (GlobusAPIError "404" "not found"))
                 (Ret (mkTransferResult "task-1"))))
  = Some (Failed (msg_api_error "404" "not found")).
Proof.
  split; [reflexivity|].
  apply (X14_listing_error test_sync _ (GlobusAPIError "404" "not found")); reflexivity.
Defined.

(** X15: when the listing returns but the submission raises one of the four
    Globus errors, [synchronize] prints the matching line and returns
    normally without calling [task_wait]; the run reports Failed. *)
Theorem X15_submission_error (self : Synchronizer) (w : World) (listing : list Entry)
    (e : exn) (line : string) :
  let files := map entry_name listing in
  let td := build_transfer_data self files None Config.PERSONAL_UUID in
  failure_line e = Some line ->
  operation_ls w (mirror_uuid self) (listing_path (request self))
    (listing_pattern (request self)) = Ret listing ->
  submit_transfer w td = Raise e ->
  synchronize self w =
    ([OperationLs (mirror_uuid self) (listing_path (request self))
        (listing_pattern (request self));
      Print (msg_transferring (Z.of_nat (List.length files))
               (task_max_duration_s files));
      SubmitTransfer td;
      Print line],
     Ret tt) /\
  reported (trace (synchronize self) w) = Some (Failed line).
Proof.
  intros files td Hline Hls Hsub.
  assert (Hrun : synchronize self w =
    ([OperationLs (mirror_uuid self) (listing_path (request self))
        (listing_pattern (request self));
      Print (msg_transferring (Z.of_nat (List.length files))
               (task_max_duration_s files));
      SubmitTransfer td] ++ [Print line], Ret tt)%list).
  { unfold synchronize, try_except, synchronize_body, sync_files_from_list,
      bind, call, print.
    rewrite Hls. fold files. fold td. rewrite Hsub.
    destruct e; try discriminate Hline; injection Hline as <-; reflexivity. }
  split; [exact Hrun|].
  unfold trace. rewrite Hrun. apply (failure_line_reported e). exact Hline.
Qed.

Lemma X15_submission_error_witness :
  failure_line GlobusConnectionError = Some msg_connection_error /\
  reported (trace (synchronize test_sync)
              (example_world (Some "secret") WriteSucceeds (Ret test_endpoints)
                 (Ret test_listing) (Raise GlobusConnectionError)))
  = Some (Failed msg_connection_error).
Proof.
  split; [reflexivity|].
  apply (X15_submission_error test_sync _ test_listing GlobusConnectionError);
    reflexivity.
Defined.

(** X16: none of the four Globus errors ever leaves [synchronize]: whatever
    the service answers, [synchronize] returns normally or raises an
    exception that no [except] clause names, and in the first case the last
    thing it did was print a line. *)
Theorem X16_globus_errors_caught (self : Synchronizer) (w : World) :
  match outcome (synchronize self) w with
  | Ret _ => exists t line, trace (synchronize self) w = (t ++ [Print line])%list
  | Raise e => failure_line e = None
  end.
Proof.
  unfold outcome, trace, synchronize, try_except, synchronize_body,
    sync_files_from_list, bind, call, print.
  destruct (operation_ls w _ _ _) as [listing|e1].
  - destruct (submit_transfer w _) as [tr|e2].
    + destruct (task_wait w _ _ _) as [[|]|e3].
      * cbn [fst snd app negb]. eexists [_; _; _; _], _. reflexivity.
      * cbn [fst snd app negb]. eexists [_; _; _; _], _. reflexivity.
      * destruct e3; cbn [fst snd app synchronize_handlers failure_line];
          try reflexivity; eexists [_; _; _; _], _; reflexivity.
    + destruct e2; cbn [fst snd app synchronize_handlers failure_line];
        try reflexivity; eexists [_; _; _], _; reflexivity.
  - destruct e1; cbn [fst snd app synchronize_handlers failure_line];
      try reflexivity; eexists [_], _; reflexivity.
Qed.

(** ** The whole run *)

Lemma mirror_loop_none (eps : list Endpoint) :
  Forall (fun ep => is_mirror ep = Ret false) eps ->
  mirror_loop eps = sys_exit msg_no_endpoint.
Proof.
  induction 1 as [|ep eps Hep _ IH]; [reflexivity|].
  rewrite mirror_loop_cons, Hep. exact IH.
Qed.

(** X17: the [try] of [synchronize] does not cover the constructor. With a
    client id filled in, a token file and a valid request, an exception
    raised by the token request of the refresh-token authorizer, or by the
    endpoint search after it, a Globus error included, ends the run with
    that very exception right after the call: nothing is printed, listed or
    submitted. *)
Theorem X17_constructor_errors_escape (cid : string) (args : Args) (w : World)
    (content : string) :
  cid <> EmptyString ->
  rt_file w = Some content ->
  sanity_check (make_request (now w) cid None (Some (PyStr.readline content))
                  (Config.TRANSFER_RT_FILENAME (home w)) args) = Ret tt ->
  (forall e,
     refresh_token_grant w (PyStr.readline content) = Raise e ->
     main_block cid args w = ([RefreshTokenGrant (PyStr.readline content)], Raise e)) /\
  (forall fresh e,
     refresh_token_grant w (PyStr.readline content) = Ret fresh ->
     endpoint_search w "SuperDARN mirror" = Raise e ->
     main_block cid args w =
       ([RefreshTokenGrant (PyStr.readline content); EndpointSearch "SuperDARN mirror"],
        Raise e)).
Proof.
  intros Hcid Hfile Hok.
  split.
  - intros e Hgrant. rewrite (main_block_with_token_file cid args w content Hfile).
    unfold bind. rewrite init_refresh_run, Hok, (oauth2_start_flow_ok cid Hcid), Hgrant.
    reflexivity.
  - intros fresh e Hgrant Hsearch.
    rewrite (main_block_with_token_file cid args w content Hfile).
    unfold bind.
    rewrite init_refresh_run, Hok, (oauth2_start_flow_ok cid Hcid), Hgrant, Hsearch.
    reflexivity.
Qed.

Lemma X17_constructor_errors_escape_witness :
  endpoint_search
    (example_world (Some "secret") WriteSucceeds (Raise GlobusTimeoutError)
       (Ret test_listing) (Ret (mkTransferResult "task-1")))
    "SuperDARN mirror" = Raise GlobusTimeoutError /\
  main_block test_client_id test_args
    (example_world (Some "secret") WriteSucceeds (Raise GlobusTimeoutError)
       (Ret test_listing) (Ret (mkTransferResult "task-1")))
  = ([RefreshTokenGrant "secret"; EndpointSearch "SuperDARN mirror"],
     Raise GlobusTimeoutError).
Proof.
  split; [reflexivity|].
  assert (Hcid : test_client_id <> EmptyString) by discriminate.
  destruct (X17_constructor_errors_escape test_client_id test_args
              (example_world (Some "secret") WriteSucceeds (Raise GlobusTimeoutError)
                 (Ret test_listing) (Ret (mkTransferResult "task-1")))
              "secret" Hcid eq_refl eq_refl) as [_ H].
  apply (H "tok3" GlobusTimeoutError); reflexivity.
Defined.

(** X18: with a client id filled in, a token file, a valid request and a
    token request that returns, when the test of the loop is false on every
    search result (the contact e-mail is a string without the maintainer's
    address, or the description is a string without the marker; an empty
    result included), the run exits with the no-endpoint message right after
    the search, before any listing or transfer. *)
Theorem X18_no_endpoint_stops_run (cid : string) (args : Args) (w : World)
    (content fresh : string) (eps : list Endpoint) :
  cid <> EmptyString ->
  rt_file w = Some content ->
  sanity_check (make_request (now w) cid None (Some (PyStr.readline content))
                  (Config.TRANSFER_RT_FILENAME (home w)) args) = Ret tt ->
  refresh_token_grant w (PyStr.readline content) = Ret fresh ->
  endpoint_search w "SuperDARN mirror" = Ret eps ->
  Forall (fun ep => is_mirror ep = Ret false) eps ->
  main_block cid args w =
    ([RefreshTokenGrant (PyStr.readline content); EndpointSearch "SuperDARN mirror"],
     sys_exit "No endpoint found for SuperDARN mirror. Exiting").
Proof.
  intros Hcid Hfile Hok Hgrant Hsearch Hnone.
  rewrite (main_block_with_token_file cid args w content Hfile).
  unfold bind.
  rewrite init_refresh_run, Hok, (oauth2_start_flow_ok cid Hcid), Hgrant, Hsearch.
  cbn [rbind]. rewrite (mirror_loop_none eps Hnone). reflexivity.
Qed.

Lemma X18_no_endpoint_stops_run_witness :
  Forall (fun ep => is_mirror ep = Ret false)
    [mkEndpoint "e1" (Some "kevin.krieger@usask.ca") (Some "a test mirror")] /\
  main_block test_client_id test_args
    (example_world (Some "secret") WriteSucceeds
       (Ret [mkEndpoint "e1" (Some "kevin.krieger@usask.ca") (Some "a test mirror")])
       (Ret test_listing) (Ret (mkTransferResult "task-1")))
  = ([RefreshTokenGrant "secret"; EndpointSearch "SuperDARN mirror"],
     sys_exit "No endpoint found for SuperDARN mirror. Exiting").
Proof.
  assert (H : Forall (fun ep => is_mirror ep = Ret false)
                [mkEndpoint "e1" (Some "kevin.krieger@usask.ca") (Some "a test mirror")])
    by (repeat constructor).
  assert (Hcid : test_client_id <> EmptyString) by discriminate.
  split; [exact H|].
  apply (X18_no_endpoint_stops_run test_client_id test_args _ "secret" "tok3"
           [mkEndpoint "e1" (Some "kevin.krieger@usask.ca") (Some "a test mirror")]);
    [exact Hcid | reflexivity | reflexivity | reflexivity | reflexivity | exact H].
Defined.

(** X19: a whole unattended run, for a client id that has been filled in.
    With a token file, a valid request, a token request that returns, a
    search whose loop returns [uuid], and a listing, a submission and a wait
    that return, the run is exactly: the token request with the first line
    of the file, the endpoint search, the listing of the month directory on
    [uuid] with the filter, the line announcing the files and the timeout,
    the submission of the batch from [uuid] to the personal endpoint, the
    wait with 30 seconds per file polled every 30 seconds, and the final
    line. *)
Theorem X19_unattended_run (cid : string) (args : Args) (w : World)
    (content fresh uuid : string) (eps : list Endpoint) (listing : list Entry)
    (tr : TransferResult) (completed : bool) :
  let r := make_request (now w) cid None (Some (PyStr.readline content))
             (Config.TRANSFER_RT_FILENAME (home w)) args in
  let self := mkSynchronizer r
                (mkTransferClient (RefreshTokenAuthorizer (PyStr.readline content) cid))
                uuid in
  let files := map entry_name listing in
  let td := build_transfer_data self files None Config.PERSONAL_UUID in
  let timeout := 30 * Z.of_nat (List.length files) in
  cid <> EmptyString ->
  rt_file w = Some content ->
  sanity_check r = Ret tt ->
  refresh_token_grant w (PyStr.readline content) = Ret fresh ->
  endpoint_search w "SuperDARN mirror" = Ret eps ->
  mirror_loop eps = Ret uuid ->
  operation_ls w uuid (listing_path r) (listing_pattern r) = Ret listing ->
  submit_transfer w td = Ret tr ->
  task_wait w (task_id tr) timeout 30 = Ret completed ->
  main_block cid args w =
    ([RefreshTokenGrant (PyStr.readline content);
      EndpointSearch "SuperDARN mirror";
      OperationLs uuid (listing_path r) (listing_pattern r);
      Print (msg_transferring (Z.of_nat (List.length files)) timeout);
      SubmitTransfer td;
      TaskWait (task_id tr) timeout 30;
      Print (if completed then msg_finished else msg_still_running)],
     Ret tt) /\
  td_source_endpoint td = uuid /\
  td_destination_endpoint td = Config.PERSONAL_UUID.
Proof.
  intros r self files td timeout Hcid Hfile Hok Hgrant Hsearch Hloop Hls Hsub Hwait.
  split.
  - rewrite (main_block_with_token_file cid args w content Hfile).
    unfold bind. rewrite init_refresh_run. fold r.
    rewrite Hok, (oauth2_start_flow_ok cid Hcid), Hgrant, Hsearch.
    cbn [rbind]. rewrite Hloop. cbn [rbind]. fold self.
    rewrite (synchronize_run self w listing tr completed Hls Hsub Hwait).
    reflexivity.
  - subst td. unfold build_transfer_data.
    match goal with |- context [add_items ?t ?s ?d ?f] =>
      destruct (add_items_fields t s d f) as (H1 & H2 & _) end.
    rewrite H1, H2. split; reflexivity.
Qed.

Lemma X19_unattended_run_witness :
  rt_file test_world = Some "secret" /\
  main_block test_client_id test_args test_world =
    ([RefreshTokenGrant "secret";
      EndpointSearch "SuperDARN mirror";
      OperationLs "e2" "~/chroot/sddata/raw/2007/01/" "name:~*20070101*sas*rawacf.bz2";
      Print "Transferring 2 files with a soft timeout of 60 s.";
      SubmitTransfer (build_transfer_data test_sync ["a.rawacf.bz2"; "b.rawacf.bz2"]
                        None Config.PERSONAL_UUID);
      TaskWait "task-1" 60 30;
      Print "Transfer finished"],
     Ret tt).
Proof.
  split; [reflexivity|].
  assert (Hcid : test_client_id <> EmptyString) by discriminate.
  destruct (X19_unattended_run test_client_id test_args test_world "secret" "tok3" "e2"
              test_endpoints test_listing (mkTransferResult "task-1") true
              Hcid eq_refl eq_refl eq_refl eq_refl eq_refl eq_refl eq_refl eq_refl)
    as [H _].
  exact H.
Defined.

(** ** Paths of the batch *)

Lemma append_inv_head (a b c : string) : a ++ b = a ++ c -> b = c.
Proof.
  induction a as [|x a IH]; simpl; intros H; [exact H|].
  injection H as H. apply IH. exact H.
Qed.

(** X20: different file names never share a path in the batch: for a list
    of names without repetition, the destination paths of the batch are
    pairwise different, and so are its source paths. *)
Theorem X20_batch_paths_distinct (self : Synchronizer) (files : list string)
    (source_uuid : option string) (dest_uuid : string) :
  NoDup files ->
  let td := build_transfer_data self files source_uuid dest_uuid in
  NoDup (map snd (td_items td)) /\ NoDup (map fst (td_items td)).
Proof.
  intros Hnd td. subst td. unfold build_transfer_data.
  rewrite add_items_items. cbn [td_items List.app]. rewrite !map_map. cbn [fst snd].
  split; (apply NoDup_map_NoDup_ForallPairs; [|exact Hnd]);
    intros a b _ _ E; apply append_inv_head in E; injection E as E; exact E.
Qed.

Lemma X20_batch_paths_distinct_witness :
  NoDup ["a.rawacf.bz2"; "b.rawacf.bz2"] /\
  NoDup (map snd (td_items (build_transfer_data test_sync
                              ["a.rawacf.bz2"; "b.rawacf.bz2"] None Config.PERSONAL_UUID))).
Proof.
  assert (H : NoDup ["a.rawacf.bz2"; "b.rawacf.bz2"]).
  { repeat constructor; simpl; intuition discriminate. }
  split; [exact H|].
  apply (X20_batch_paths_distinct test_sync ["a.rawacf.bz2"; "b.rawacf.bz2"]
           None Config.PERSONAL_UUID H).
Defined.
